(** * ContractGuard: the contract register, its risk triggers and its dashboard

    A shallow embedding of the parts of the ContractGuard front end that carry
    logic:

    - [constants.ts] (the second document of [src/components/Layout.tsx]):
      [createMockContract] and the seed collection [MOCK_CONTRACTS];
    - [src/components/Dashboard.tsx]: the filter / sort / pagination state of
      the dashboard, [filteredContracts], [kpiBaseContracts], [metrics] and the
      pagination-reset effect;
    - [src/services/geminiService.ts]: [analyzeContractRisks] and
      [refineContractText].

    Conventions.  A JavaScript [number] that holds a money amount or a
    millisecond timestamp is a [Z]: a whole-valued double.  Amounts are
    compared exactly; they are added as doubles are, the exact sum being
    rounded to the nearest double ([JS.add]).  A JavaScript string is a
    [string] of ASCII characters ([JS.isAscii]); only on such text is
    [JS.toLowerCase] what [String.prototype.toLowerCase] computes, and the
    properties that depend on lower-casing assume it.  Fields of
    [ContractData] that are only rendered (audit trail, comments, reviews,
    documents, approvals) are left out of the record. *)

From Stdlib Require Import ZArith List Bool Ascii String Lia Permutation Sorted.
From Stdlib Require Import QArith DecimalString Btauto.
Import ListNotations.

#[local] Open Scope string_scope.
#[local] Open Scope Z_scope.

(* ================================================================= *)
(** ** JavaScript built-ins used by the sources *)

Module JS.

(** The text the model speaks for: every character is an ASCII character. *)
Fixpoint isAscii (s : string) : bool :=
  match s with
  | EmptyString => true
  | String c s' => Nat.ltb (nat_of_ascii c) 128 && isAscii s'
  end.

(** [String.prototype.toLowerCase] on ASCII text ([isAscii]), where it
    maps the letters [A-Z] to [a-z] one by one and leaves every other
    character alone.  Outside ASCII the method folds further letters and
    looks at the context of some; this definition does not follow it
    there. *)
Definition toLowerCaseChar (c : ascii) : ascii :=
  let n := nat_of_ascii c in
  if (Nat.leb 65 n && Nat.leb n 90)%bool then ascii_of_nat (n + 32) else c.

Fixpoint toLowerCase (s : string) : string :=
  match s with
  | EmptyString => EmptyString
  | String c s' => String (toLowerCaseChar c) (toLowerCase s')
  end.

(** [p] is found at the very start of [s]. *)
Fixpoint startsWith (s p : string) {struct p} : bool :=
  match p, s with
  | EmptyString, _ => true
  | String _ _, EmptyString => false
  | String a p', String b s' => Ascii.eqb a b && startsWith s' p'
  end.

(** [String.prototype.includes]: [sub] occurs somewhere in [s]. *)
Fixpoint includes (s sub : string) : bool :=
  startsWith s sub ||
  match s with
  | EmptyString => false
  | String _ s' => includes s' sub
  end.

(** Truthiness of a string: only the empty string is falsy. *)
Definition truthy (s : string) : bool :=
  match s with
  | EmptyString => false
  | String _ _ => true
  end.

(** [a || b] on strings. *)
Definition or_else (a b : string) : string :=
  if truthy a then a else b.

(** [`${n}`] for an integral number. *)
Definition numberToString (n : Z) : string :=
  NilZero.string_of_int (Z.to_int n).

Section Sort.
Context {A : Type}.
(** The comparator handed to [Array.prototype.sort]: a negative result
    asks for the first argument to come first. *)
Variable compareFn : A -> A -> Z.

(** [x] is put in front of the first element it does not have to
    follow. *)
Fixpoint insert (x : A) (l : list A) : list A :=
  match l with
  | [] => [x]
  | y :: l' => if compareFn x y <=? 0 then x :: y :: l' else y :: insert x l'
  end.

(** [Array.prototype.sort(compareFn)].  ECMAScript (2019 and later)
    requires the sort to be stable; for a consistent comparator the
    result is then determined, and it is the one this insertion sort
    computes. *)
Fixpoint sort (l : list A) : list A :=
  match l with
  | [] => []
  | x :: l' => insert x (sort l')
  end.
End Sort.

(** The double nearest to a whole number, ties going to the even
    significand.  Whole numbers up to 2^53 in magnitude are doubles; beyond,
    a double keeps 53 significant bits.  (Magnitudes stay far below 2^1024:
    overflow to [Infinity] is not modelled.) *)
Definition roundToDouble (z : Z) : Z :=
  let m := Z.abs z in
  if m <=? 9007199254740992 then z
  else
    let ulp := 2 ^ (Z.log2 m - 52) in
    let q := m / ulp in
    let r := m mod ulp in
    let q' :=
      if 2 * r <? ulp then q
      else if ulp <? 2 * r then q + 1
      else if Z.even q then q else q + 1 in
    Z.sgn z * (q' * ulp).

(** [a + b] on whole-valued doubles: the exact sum, rounded. *)
Definition add (a b : Z) : Z := roundToDouble (a + b).

(** [Array.prototype.reduce((acc, c) => acc + f c, 0)]. *)
Definition reduce_sum {A : Type} (f : A -> Z) (l : list A) : Z :=
  fold_left (fun acc c => add acc (f c)) l 0.

End JS.

(* ================================================================= *)
(** ** types.ts *)

(** Modelled from the spec: the [Entity] enumeration.  [types.ts] is not among
    the sources; the four members are the ones the sources refer to
    ([Entity.LONDON], [Entity.BRAZIL], [Entity.CONGO],
    [Entity.EQUATORIAL_GUINEA]) and the spec speaks of four entities. *)
Inductive Entity : Type :=
| LONDON
| BRAZIL
| CONGO
| EQUATORIAL_GUINEA.

(** Modelled from the spec: the [ContractStatus] enumeration, with the six
    states the spec lists and [getStatusBadge] switches over. *)
Inductive ContractStatus : Type :=
| DRAFT
| SUBMITTED
| PENDING_CEO
| CHANGES_REQUESTED
| APPROVED
| REJECTED.

(** Modelled from the spec: the [RiskCategory] enumeration. *)
Inductive RiskCategory : Type :=
| FINANCIAL
| LEGAL
| OPERATIONAL
| THIRD_PARTY
| ENVIRONMENTAL.

(** The literal type ['CAPEX' | 'OPEX'] of [contractType]. *)
Inductive ContractType : Type :=
| CAPEX
| OPEX.

Definition Entity_eqb (a b : Entity) : bool :=
  match a, b with
  | LONDON, LONDON | BRAZIL, BRAZIL | CONGO, CONGO
  | EQUATORIAL_GUINEA, EQUATORIAL_GUINEA => true
  | _, _ => false
  end.

Definition ContractStatus_eqb (a b : ContractStatus) : bool :=
  match a, b with
  | DRAFT, DRAFT | SUBMITTED, SUBMITTED | PENDING_CEO, PENDING_CEO
  | CHANGES_REQUESTED, CHANGES_REQUESTED | APPROVED, APPROVED
  | REJECTED, REJECTED => true
  | _, _ => false
  end.

Definition ContractType_eqb (a b : ContractType) : bool :=
  match a, b with
  | CAPEX, CAPEX | OPEX, OPEX => true
  | _, _ => false
  end.

Module RiskTrigger.
Record t : Type := mk
  { id : string;
    category : RiskCategory;
    description : string;
    triggered : bool }.
End RiskTrigger.

Record ContractData : Type := mkContractData
  { id : string;
    entity : Entity;
    department : string;
    contractorName : string;
    contractType : ContractType;
    amount : Z;
    currency : string;
    startDate : string;
    endDate : string;
    hasExtensionOptions : bool;
    scopeOfWork : string;
    backgroundNeed : string;
    tenderProcessSummary : string;
    specialConsiderations : string;
    technicalEvalSummary : string;
    commercialEvalSummary : string;
    deviationsDescription : option string;
    isStandardTerms : bool;
    liabilityCapPercent : Z;
    isSubcontracting : bool;
    subcontractingPercent : Z;
    riskDescription : string;
    mitigationMeasures : string;
    priceStructure : string;
    status : ContractStatus;
    submitterId : string;
    submissionDate : option Z;
    detectedTriggers : list RiskTrigger.t;
    isHighRisk : bool;
    ddqNumber : string;
    ddqDate : string;
    ddqValidityDate : string;
    otherChecksDetails : string }.

(* ================================================================= *)
(** ** constants.ts *)

(** [INITIAL_TRIGGERS], the catalog of trigger definitions. *)
Definition INITIAL_TRIGGERS : list RiskTrigger.t :=
  [ RiskTrigger.mk "t1" FINANCIAL "OPEX > USD 1M" false;
    RiskTrigger.mk "t2" FINANCIAL "CAPEX > USD 5M" false;
    RiskTrigger.mk "t3" LEGAL "Liability cap < 100% contract value" false;
    RiskTrigger.mk "t4" OPERATIONAL "Contract > 3 years fixed" false;
    RiskTrigger.mk "t5" THIRD_PARTY "Subcontracting > 30% of scope" false;
    RiskTrigger.mk "t6" THIRD_PARTY "Sole Source Supplier" false;
    RiskTrigger.mk "t7" ENVIRONMENTAL "Work involving hazardous materials"
      false;
    RiskTrigger.mk "t8" OPERATIONAL
      "Work in conflict zone / high security risk" false;
    RiskTrigger.mk "t9" LEGAL "High risk of IP infringement" false;
    RiskTrigger.mk "t10" FINANCIAL
      "Payment terms deviate from standard policy" false;
    RiskTrigger.mk "t11" ENVIRONMENTAL
      "Significant environmental impact potential" false ].

(** The block of [createMockContract] that fills [detectedTriggers]: two
    [if]s, each pushing one trigger. *)
Definition detectTriggers (contractType : ContractType) (amount : Z)
  : list RiskTrigger.t :=
  let detectedTriggers := [] in
  let detectedTriggers :=
    if ContractType_eqb contractType OPEX && (1000000 <? amount)
    then (detectedTriggers ++
          [RiskTrigger.mk "t1" FINANCIAL "OPEX > USD 1M" true])%list
    else detectedTriggers in
  let detectedTriggers :=
    if ContractType_eqb contractType CAPEX && (5000000 <? amount)
    then (detectedTriggers ++
          [RiskTrigger.mk "t2" FINANCIAL "CAPEX > USD 5M" true])%list
    else detectedTriggers in
  detectedTriggers.

(** [detectedTriggers.length > 0]. *)
Definition nonEmpty {A : Type} (l : list A) : bool :=
  (0 <? Z.of_nat (List.length l)).

(** [createMockContract].  [submitted] stands for the value of
    [Date.now() - Math.random() * 1000000000] at the call. *)
Definition createMockContract (submitted : Z)
  (id : string) (entity : Entity) (status : ContractStatus) (amount : Z)
  (title : string) : ContractData :=
  let contractType := if 5000000 <? amount then CAPEX else OPEX in
  let detectedTriggers := detectTriggers contractType amount in
  let isHighRisk := nonEmpty detectedTriggers in
  {| id := id;
     entity := entity;
     department := "Operations";
     contractorName := title;
     contractType := contractType;
     amount := amount;
     currency := "USD";
     startDate := "2024-01-01";
     endDate := "2025-01-01";
     hasExtensionOptions := false;
     scopeOfWork := "Provision of " ++ JS.toLowerCase title ++ " services.";
     backgroundNeed := "Operational requirement.";
     tenderProcessSummary := "Competitive tender.";
     specialConsiderations := "None";
     technicalEvalSummary := "Technically qualified.";
     commercialEvalSummary := "Commercially aligned.";
     deviationsDescription := None;
     isStandardTerms := true;
     liabilityCapPercent := 100;
     isSubcontracting := false;
     subcontractingPercent := 0;
     riskDescription := "Standard operational risks.";
     mitigationMeasures := "Standard mitigation.";
     priceStructure := "Fixed";
     status := status;
     submitterId := "u1";
     submissionDate := Some submitted;
     detectedTriggers := detectedTriggers;
     isHighRisk := isHighRisk;
     ddqNumber := "REEU3P-12345";
     ddqDate := "2023-06-15";
     ddqValidityDate := "2025-06-15";
     otherChecksDetails :=
       "Financial health check passed. QHSE audit score 92%." |}.

(** The two contracts [MOCK_CONTRACTS] writes out as object literals.  [now]
    is the reading of [Date.now()]. *)
Definition CNT_2023_001 (now : Z) : ContractData :=
  {| id := "CNT-2023-001";
     entity := BRAZIL;
     department := "Drilling";
     contractorName := "DeepSea Solutions";
     contractType := CAPEX;
     amount := 12000000;
     currency := "USD";
     startDate := "2023-11-01";
     endDate := "2026-11-01";
     hasExtensionOptions := true;
     scopeOfWork := "Provision of deepwater drilling rig support services.";
     backgroundNeed := "Critical for Q4 campaign.";
     tenderProcessSummary := "Competitive tender, 4 bidders.";
     specialConsiderations := "None";
     technicalEvalSummary := "Scored 85/100";
     commercialEvalSummary := "Lowest compliant bidder";
     deviationsDescription := None;
     isStandardTerms := true;
     liabilityCapPercent := 100;
     isSubcontracting := false;
     subcontractingPercent := 0;
     riskDescription := "Operational delays due to weather.";
     mitigationMeasures := "Buffer built into schedule.";
     priceStructure := "Fixed";
     status := PENDING_CEO;
     submitterId := "u1";
     submissionDate := Some (now - 172800000);
     detectedTriggers :=
       [RiskTrigger.mk "t2" FINANCIAL "CAPEX > USD 5M" true];
     isHighRisk := true;
     ddqNumber := "REEU3P-98765";
     ddqDate := "2023-01-10";
     ddqValidityDate := "2025-01-10";
     otherChecksDetails := "Standard technical qualification passed." |}.

Definition CNT_2023_002 (now : Z) : ContractData :=
  {| id := "CNT-2023-002";
     entity := CONGO;
     department := "Logistics";
     contractorName := "Local Transport Co";
     contractType := OPEX;
     amount := 800000;
     currency := "USD";
     startDate := "2024-01-01";
     endDate := "2024-12-31";
     hasExtensionOptions := false;
     scopeOfWork := "Logistics support.";
     backgroundNeed := "Routine transport.";
     tenderProcessSummary := "Sole source justification provided.";
     specialConsiderations := "None";
     technicalEvalSummary := "Pass";
     commercialEvalSummary := "Aligned with market rates";
     deviationsDescription := None;
     isStandardTerms := true;
     liabilityCapPercent := 100;
     isSubcontracting := true;
     subcontractingPercent := 10;
     riskDescription := "Low risk.";
     mitigationMeasures := "Standard insurance.";
     priceStructure := "Fixed";
     status := SUBMITTED;
     submitterId := "u1";
     submissionDate := Some (now - 3600000);
     detectedTriggers := [];
     isHighRisk := false;
     ddqNumber := "REEU3P-55555";
     ddqDate := "2023-08-20";
     ddqValidityDate := "2025-08-20";
     otherChecksDetails := "Local compliance verification complete." |}.

(** [MOCK_CONTRACTS].  [now k] is the reading of [Date.now()] and [rnd k] the
    value of [Math.random() * 1000000000] taken for the [k]-th element of the
    array. *)
Definition MOCK_CONTRACTS (now rnd : nat -> Z) : list ContractData :=
  let mock (k : nat) := createMockContract (now k - rnd k) in
  [ CNT_2023_001 (now 0%nat);
    CNT_2023_002 (now 1%nat);
    mock 2%nat "CNT-2023-003" BRAZIL APPROVED 15000000 "FPSO Maintenance";
    mock 3%nat "CNT-2023-004" BRAZIL SUBMITTED 8000000 "Support Vessel Charter";
    mock 4%nat "CNT-2023-005" BRAZIL REJECTED 2000000 "Offshore Catering";
    mock 5%nat "CNT-2023-006" BRAZIL DRAFT 500000 "Waste Management";
    mock 6%nat "CNT-2023-007" BRAZIL PENDING_CEO 45000000
      "Subsea Tree Installation";
    mock 7%nat "CNT-2023-008" CONGO APPROVED 1200000 "Road Maintenance";
    mock 8%nat "CNT-2023-009" CONGO PENDING_CEO 3000000
      "Site Security Services";
    mock 9%nat "CNT-2023-010" CONGO CHANGES_REQUESTED 5000000
      "Base Camp Construction";
    mock 10%nat "CNT-2023-011" CONGO SUBMITTED 800000 "Diesel Supply";
    mock 11%nat "CNT-2023-012" CONGO APPROVED 600000 "Medical Services";
    mock 12%nat "CNT-2023-013" EQUATORIAL_GUINEA PENDING_CEO 12000000
      "Gas Turbine Overhaul";
    mock 13%nat "CNT-2023-014" EQUATORIAL_GUINEA APPROVED 1500000
      "Scaffolding Services";
    mock 14%nat "CNT-2023-015" EQUATORIAL_GUINEA SUBMITTED 900000
      "Paint & Blast";
    mock 15%nat "CNT-2023-016" EQUATORIAL_GUINEA DRAFT 300000 "Valve Supply";
    mock 16%nat "CNT-2023-017" EQUATORIAL_GUINEA REJECTED 2000000
      "Crane Rental";
    mock 17%nat "CNT-2023-018" LONDON PENDING_CEO 5000000
      "ERP License Renewal";
    mock 18%nat "CNT-2023-019" LONDON APPROVED 1000000
      "Global Audit Services";
    mock 19%nat "CNT-2023-020" LONDON SUBMITTED 2000000
      "Legal Counsel Retainer";
    mock 20%nat "CNT-2023-021" LONDON PENDING_CEO 8000000 "New Office Lease";
    mock 21%nat "CNT-2023-022" LONDON CHANGES_REQUESTED 1500000
      "IT Infrastructure Support" ].

(* ================================================================= *)
(** ** components/Dashboard.tsx *)

Inductive SortOrder : Type :=
| asc
| desc.

(** The [useState] cells of the [Dashboard] component. *)
Record DashboardState : Type := mkDashboardState
  { selectedEntity : string;
    selectedStatus : string;
    isHighRiskFilter : bool;
    searchTerm : string;
    sortOrder : SortOrder;
    currentPage : Z;
    itemsPerPage : Z }.

Definition initialState : DashboardState :=
  {| selectedEntity := "ALL";
     selectedStatus := "ALL";
     isHighRiskFilter := false;
     searchTerm := EmptyString;
     sortOrder := desc;
     currentPage := 1;
     itemsPerPage := 25 |}.

(** One bar of [statusData] and one bar of [spendData]. *)
Record StatusBucket : Type := mkStatusBucket
  { bucketStatus : ContractStatus;
    bucketCount : nat }.

Record SpendBucket : Type := mkSpendBucket
  { spendName : string;
    spendValue : Z }.

Record Metrics : Type := mkMetrics
  { pending : nat;
    totalValue : Z;
    highRisk : nat;
    avgDays : Q;
    statusData : list StatusBucket;
    spendData : list SpendBucket }.

(** The callback both entity filters hand to [Array.prototype.filter]: a
    cascade of conditionals on the selected label whose last branch is
    Equatorial Guinea. *)
Definition entityMatches (selectedEntity : string) (c : ContractData) : bool :=
  if (selectedEntity =? "London")%string then Entity_eqb (entity c) LONDON
  else if (selectedEntity =? "Brazil")%string then Entity_eqb (entity c) BRAZIL
  else if (selectedEntity =? "Congo")%string then Entity_eqb (entity c) CONGO
  else Entity_eqb (entity c) EQUATORIAL_GUINEA.

(** [c.status === SUBMITTED || c.status === PENDING_CEO]. *)
Definition underReview (c : ContractData) : bool :=
  ContractStatus_eqb (status c) SUBMITTED
  || ContractStatus_eqb (status c) PENDING_CEO.

(** [c.submissionDate || 0]. *)
Definition dateOrZero (c : ContractData) : Z :=
  match submissionDate c with
  | Some d => if d =? 0 then 0 else d
  | None => 0
  end.

(** The comparator of the date sort. *)
Definition compareByDate (sortOrder : SortOrder) (a b : ContractData) : Z :=
  let dateA := dateOrZero a in
  let dateB := dateOrZero b in
  match sortOrder with
  | asc => dateA - dateB
  | desc => dateB - dateA
  end.

(** The text filter's callback, [lower] being the lower-cased term. *)
Definition searchMatches (lower : string) (c : ContractData) : bool :=
  JS.includes (JS.toLowerCase (contractorName c)) lower
  || JS.includes (JS.toLowerCase (id c)) lower
  || JS.includes (JS.toLowerCase (scopeOfWork c)) lower.

(** [Math.ceil(length / itemsPerPage)], for the positive page sizes the
    rows-per-page select offers. *)
Definition ceilDiv (n d : Z) : Z := (n + d - 1) / d.

Section Dashboard.

(** The string value of each [ContractStatus] member.  The enumeration is
    declared in [types.ts], which is not among the sources, so the values
    are a parameter. *)
Variable statusValue : ContractStatus -> string.

Variable contracts : list ContractData.

(** The [useMemo] that filters and sorts. *)
Definition filteredContracts (st : DashboardState) : list ContractData :=
  let data := contracts in
  let data :=
    if negb (selectedEntity st =? "ALL")%string
    then filter (entityMatches (selectedEntity st)) data
    else data in
  let data :=
    if (selectedStatus st =? "REVIEW")%string
    then filter underReview data
    else if negb (selectedStatus st =? "ALL")%string
    then filter (fun c => (statusValue (status c) =? selectedStatus st)%string)
                data
    else data in
  let data :=
    if isHighRiskFilter st then filter isHighRisk data else data in
  let data :=
    if JS.truthy (searchTerm st)
    then let lower := JS.toLowerCase (searchTerm st) in
         filter (searchMatches lower) data
    else data in
  JS.sort (compareByDate (sortOrder st)) data.

Definition totalPages (st : DashboardState) : Z :=
  ceilDiv (Z.of_nat (List.length (filteredContracts st))) (itemsPerPage st).

(** [filteredContracts.slice(startIndex, startIndex + itemsPerPage)], the
    start index being non-negative from page 1 on. *)
Definition paginatedContracts (st : DashboardState) : list ContractData :=
  let startIndex := (currentPage st - 1) * itemsPerPage st in
  firstn (Z.to_nat (itemsPerPage st))
         (skipn (Z.to_nat startIndex) (filteredContracts st)).

Definition kpiBaseContracts (st : DashboardState) : list ContractData :=
  if (selectedEntity st =? "ALL")%string then contracts
  else filter (entityMatches (selectedEntity st)) contracts.

End Dashboard.

(** The body of the [metrics] memo, a function of [kpiBaseContracts]. *)
Definition computeMetrics (kpiBaseContracts : list ContractData) : Metrics :=
  let count (s : ContractStatus) :=
    List.length
      (filter (fun c => ContractStatus_eqb (status c) s) kpiBaseContracts) in
  let spend (e : Entity) :=
    JS.reduce_sum amount
      (filter (fun c => Entity_eqb (entity c) e) kpiBaseContracts) in
  {| pending := List.length (filter underReview kpiBaseContracts);
     totalValue := JS.reduce_sum amount kpiBaseContracts;
     highRisk := List.length (filter isHighRisk kpiBaseContracts);
     avgDays :=
       if (0 <? Z.of_nat (List.length kpiBaseContracts)) then (5 # 2)%Q
       else 0%Q;
     statusData :=
       filter (fun d => (0 <? Z.of_nat (bucketCount d)))
         [ mkStatusBucket SUBMITTED (count SUBMITTED);
           mkStatusBucket PENDING_CEO (count PENDING_CEO);
           mkStatusBucket APPROVED (count APPROVED);
           mkStatusBucket REJECTED (count REJECTED) ];
     spendData :=
       [ mkSpendBucket "London" (spend LONDON);
         mkSpendBucket "Brazil" (spend BRAZIL);
         mkSpendBucket "Congo" (spend CONGO);
         mkSpendBucket "Eq. Guinea" (spend EQUATORIAL_GUINEA) ] |}.

Definition metrics (contracts : list ContractData) (st : DashboardState)
  : Metrics :=
  computeMetrics (kpiBaseContracts contracts st).

(** The four filter callbacks of [filteredContracts] under their guards, as
    one predicate: what a contract has to satisfy to stay in [data]. *)
Definition keeps (statusValue : ContractStatus -> string)
  (st : DashboardState) (c : ContractData) : bool :=
  (if negb (selectedEntity st =? "ALL")%string
   then entityMatches (selectedEntity st) c else true)
  && (if (selectedStatus st =? "REVIEW")%string then underReview c
      else if negb (selectedStatus st =? "ALL")%string
      then (statusValue (status c) =? selectedStatus st)%string
      else true)
  && (if isHighRiskFilter st then isHighRisk c else true)
  && (if JS.truthy (searchTerm st)
      then searchMatches (JS.toLowerCase (searchTerm st)) c else true).

(** *** User events and the pagination-reset effect *)

(** The label each of the four [FlagButton]s is rendered with. *)
Definition flagLabel (e : Entity) : string :=
  match e with
  | LONDON => "London"
  | BRAZIL => "Brazil"
  | CONGO => "Congo"
  | EQUATORIAL_GUINEA => "Equatorial Guinea"
  end.

(** The options of the status select: two fixed ones, then one per
    [Object.values(ContractStatus)]. *)
Inductive StatusOption : Type :=
| OptionAll
| OptionReview
| OptionStatus (s : ContractStatus).

(** The options of the rows-per-page select. *)
Inductive RowsOption : Type :=
| Rows25
| Rows50
| Rows100.

Definition rowsValue (r : RowsOption) : Z :=
  match r with
  | Rows25 => 25
  | Rows50 => 50
  | Rows100 => 100
  end.

Inductive KPI : Type :=
| PENDING
| VALUE
| RISK
| AVG.

(** What the user can do on the dashboard; each constructor is one [onClick]
    or [onChange] handler of the component. *)
Inductive Event : Type :=
| FlagButtonClick (e : Entity)
| KPICardClick (k : KPI)
| PieSliceClick (s : ContractStatus)
| SearchInputChange (text : string)
| StatusSelectChange (o : StatusOption)
| SortHeaderClick
| RowsPerPageChange (r : RowsOption)
| PreviousPageClick
| NextPageClick.

Definition toggleSortOrder (prev : SortOrder) : SortOrder :=
  match prev with
  | asc => desc
  | desc => asc
  end.

(** The setters [useState] hands out. *)
Definition setSelectedEntity (v : string) (st : DashboardState) : DashboardState :=
  {| selectedEntity := v;
     selectedStatus := selectedStatus st;
     isHighRiskFilter := isHighRiskFilter st;
     searchTerm := searchTerm st;
     sortOrder := sortOrder st;
     currentPage := currentPage st;
     itemsPerPage := itemsPerPage st |}.

Definition setSelectedStatus (v : string) (st : DashboardState) : DashboardState :=
  {| selectedEntity := selectedEntity st;
     selectedStatus := v;
     isHighRiskFilter := isHighRiskFilter st;
     searchTerm := searchTerm st;
     sortOrder := sortOrder st;
     currentPage := currentPage st;
     itemsPerPage := itemsPerPage st |}.

Definition setIsHighRiskFilter (v : bool) (st : DashboardState) : DashboardState :=
  {| selectedEntity := selectedEntity st;
     selectedStatus := selectedStatus st;
     isHighRiskFilter := v;
     searchTerm := searchTerm st;
     sortOrder := sortOrder st;
     currentPage := currentPage st;
     itemsPerPage := itemsPerPage st |}.

Definition setSearchTerm (v : string) (st : DashboardState) : DashboardState :=
  {| selectedEntity := selectedEntity st;
     selectedStatus := selectedStatus st;
     isHighRiskFilter := isHighRiskFilter st;
     searchTerm := v;
     sortOrder := sortOrder st;
     currentPage := currentPage st;
     itemsPerPage := itemsPerPage st |}.

Definition setSortOrder (v : SortOrder) (st : DashboardState) : DashboardState :=
  {| selectedEntity := selectedEntity st;
     selectedStatus := selectedStatus st;
     isHighRiskFilter := isHighRiskFilter st;
     searchTerm := searchTerm st;
     sortOrder := v;
     currentPage := currentPage st;
     itemsPerPage := itemsPerPage st |}.

Definition setCurrentPage (v : Z) (st : DashboardState) : DashboardState :=
  {| selectedEntity := selectedEntity st;
     selectedStatus := selectedStatus st;
     isHighRiskFilter := isHighRiskFilter st;
     searchTerm := searchTerm st;
     sortOrder := sortOrder st;
     currentPage := v;
     itemsPerPage := itemsPerPage st |}.

Definition setItemsPerPage (v : Z) (st : DashboardState) : DashboardState :=
  {| selectedEntity := selectedEntity st;
     selectedStatus := selectedStatus st;
     isHighRiskFilter := isHighRiskFilter st;
     searchTerm := searchTerm st;
     sortOrder := sortOrder st;
     currentPage := currentPage st;
     itemsPerPage := v |}.

Section Events.

Variable statusValue : ContractStatus -> string.
Variable contracts : list ContractData.

Definition optionValue (o : StatusOption) : string :=
  match o with
  | OptionAll => "ALL"
  | OptionReview => "REVIEW"
  | OptionStatus s => statusValue s
  end.

(** [handleKPIClick]. *)
Definition handleKPIClick (type : KPI) (st : DashboardState) : DashboardState :=
  match type with
  | PENDING => setIsHighRiskFilter false (setSelectedStatus "REVIEW" st)
  | RISK => setIsHighRiskFilter true (setSelectedStatus "ALL" st)
  | VALUE | AVG => setIsHighRiskFilter false (setSelectedStatus "ALL" st)
  end.

(** The state updates an event handler asks for. *)
Definition handle (st : DashboardState) (ev : Event) : DashboardState :=
  match ev with
  | FlagButtonClick e =>
      let label := flagLabel e in
      setSelectedEntity
        (if (selectedEntity st =? label)%string then "ALL" else label) st
  | KPICardClick k => handleKPIClick k st
  | PieSliceClick s =>
      setIsHighRiskFilter false (setSelectedStatus (statusValue s) st)
  | SearchInputChange text => setSearchTerm text st
  | StatusSelectChange o => setSelectedStatus (optionValue o) st
  | SortHeaderClick => setSortOrder (toggleSortOrder (sortOrder st)) st
  | RowsPerPageChange r => setItemsPerPage (rowsValue r) st
  | PreviousPageClick =>
      (* the button is disabled on page 1 *)
      if currentPage st =? 1 then st
      else setCurrentPage (Z.max 1 (currentPage st - 1)) st
  | NextPageClick =>
      (* the button is disabled on the last page and when there is none *)
      let pages := totalPages statusValue contracts st in
      if (currentPage st =? pages) || (pages =? 0) then st
      else setCurrentPage (Z.min pages (currentPage st + 1)) st
  end.

(** The dependency array of the pagination effect,
    [[selectedEntity, selectedStatus, searchTerm, itemsPerPage,
    isHighRiskFilter]], compared between two renders. *)
Definition sameDependencies (prev next : DashboardState) : bool :=
  (selectedEntity prev =? selectedEntity next)%string
  && (selectedStatus prev =? selectedStatus next)%string
  && (searchTerm prev =? searchTerm next)%string
  && (itemsPerPage prev =? itemsPerPage next)
  && Bool.eqb (isHighRiskFilter prev) (isHighRiskFilter next).

(** [useEffect(() => setCurrentPage(1), [...])]: after a render in which a
    dependency differs from the previous render, the page goes back
    to 1. *)
Definition resetPagination (prev next : DashboardState) : DashboardState :=
  if sameDependencies prev next then next else setCurrentPage 1 next.

(** One user event, through the handler, the re-render and the effect. *)
Definition step (st : DashboardState) (ev : Event) : DashboardState :=
  resetPagination st (handle st ev).

(** The states a session can be in: [initialState], then any events. *)
Inductive reachable : DashboardState -> Prop :=
| reachable_initial : reachable initialState
| reachable_step st ev : reachable st -> reachable (step st ev).

End Events.

(** *** The pagination footer *)

Section Footer.

Variable statusValue : ContractStatus -> string.
Variable contracts : list ContractData.

(** The first number of the footer's range,
    [Math.min((currentPage - 1) * itemsPerPage + 1, filteredContracts.length)]. *)
Definition rangeStart (st : DashboardState) : Z :=
  Z.min ((currentPage st - 1) * itemsPerPage st + 1)
        (Z.of_nat (List.length (filteredContracts statusValue contracts st))).

(** Its second number,
    [Math.min(currentPage * itemsPerPage, filteredContracts.length)]. *)
Definition rangeEnd (st : DashboardState) : Z :=
  Z.min (currentPage st * itemsPerPage st)
        (Z.of_nat (List.length (filteredContracts statusValue contracts st))).

(** The page count the footer prints, [totalPages || 1]. *)
Definition displayedTotalPages (st : DashboardState) : Z :=
  let pages := totalPages statusValue contracts st in
  if pages =? 0 then 1 else pages.

End Footer.

(* ================================================================= *)
(** ** services/geminiService.ts *)

Module GeminiService.

(** How a call ends: with a value, or by throwing (for an [async] function,
    a rejected promise). *)
Inductive Completion (A : Type) : Type :=
| Normal (a : A)
| Thrown (error : string).
Arguments Normal {A} a.
Arguments Thrown {A} error.

(** Computations that may throw and that write to the console. *)
Definition M (A : Type) : Type := list string -> Completion A * list string.

Definition ret {A : Type} (a : A) : M A := fun log => (Normal a, log).

Definition bind {A B : Type} (m : M A) (k : A -> M B) : M B :=
  fun log =>
    match m log with
    | (Normal a, log') => k a log'
    | (Thrown e, log') => (Thrown e, log')
    end.

Definition lift {A : Type} (c : Completion A) : M A := fun log => (c, log).

(** [try { body } catch (error) { handler }]. *)
Definition tryCatch {A : Type} (body : M A) (handler : string -> M A) : M A :=
  fun log =>
    match body log with
    | (Normal a, log') => (Normal a, log')
    | (Thrown e, log') => handler e log'
    end.

(** [console.error(label, error)]. *)
Definition consoleError (label error : string) : M unit :=
  fun log => (Normal tt, (log ++ [(label ++ " " ++ error)%string])%list).

Notation "x <- m ;; k" := (bind m (fun x => k))
  (at level 61, m at next level, right associativity).

(** The world outside: the environment variable, and the Gemini client.
    [generateContent apiKey model contents] stands for building the client
    with [new GoogleGenAI({ apiKey })], awaiting
    [ai.models.generateContent({ model, contents })] and reading
    [response.text], any of which may throw; [None] is an [undefined]
    text. *)
Record Env : Type := mkEnv
  { API_KEY : option string;
    generateContent : string -> string -> string -> Completion (option string) }.

(** [process.env.API_KEY || ''] *)
Definition getApiKey (env : Env) : string :=
  match API_KEY env with
  | Some k => JS.or_else k EmptyString
  | None => EmptyString
  end.

(** [value || fallback] for a possibly undefined string. *)
Definition textOr (value : option string) (fallback : string) : string :=
  match value with
  | Some t => JS.or_else t fallback
  | None => fallback
  end.

Definition nl : string := String "010"%char EmptyString.
Definition dquote : string := String "034"%char EmptyString.

Definition analysisPrompt (contract : ContractData) : string :=
  nl ++
  "      You are a legal and risk expert for an oil and gas company. " ++ nl ++
  "      Analyze the following contract summary and provide a concise 3-bullet point executive risk assessment for the CEO." ++ nl ++
  "      Focus on financial exposure, operational criticality, and potential gaps in mitigation." ++ nl ++
  nl ++
  "      Contract Title: " ++ contractorName contract ++ nl ++
  "      Scope: " ++ scopeOfWork contract ++ nl ++
  "      Amount: $" ++ JS.numberToString (amount contract) ++ nl ++
  "      Duration: " ++ startDate contract ++ " to " ++ endDate contract ++ nl ++
  "      Liability Cap: " ++ JS.numberToString (liabilityCapPercent contract) ++ "%" ++ nl ++
  "      " ++ nl ++
  "      Evaluation Context:" ++ nl ++
  "      - Technical: " ++ technicalEvalSummary contract ++ nl ++
  "      - Commercial: " ++ commercialEvalSummary contract ++ nl ++
  "      - Tender Process: " ++ tenderProcessSummary contract ++ nl ++
  nl ++
  "      Risk Profile:" ++ nl ++
  "      - Deviations: " ++ textOr (deviationsDescription contract) "None" ++ nl ++
  "      - Subcontracting: " ++ JS.numberToString (subcontractingPercent contract) ++ "%" ++ nl ++
  "      - Identified Risks: " ++ riskDescription contract ++ nl ++
  "      - Mitigations: " ++ mitigationMeasures contract ++ nl ++
  "      " ++ nl ++
  "      Output format:" ++ nl ++
  "      - [Risk Level: Low/Medium/High]: Summary sentence..." ++ nl ++
  "      - Key Concern 1..." ++ nl ++
  "      - Key Concern 2..." ++ nl ++
  "      - (Optional) Mitigation Gaps..." ++ nl ++
  "    ".

Definition analyzeContractRisks (env : Env) (contract : ContractData)
  : M string :=
  let apiKey := getApiKey env in
  if negb (JS.truthy apiKey)
  then ret "API Key not configured. Unable to perform AI analysis."
  else
    tryCatch
      (let prompt := analysisPrompt contract in
       text <- lift (generateContent env apiKey "gemini-2.5-flash" prompt) ;;
       ret (textOr text "No analysis generated."))
      (fun error =>
         _ <- consoleError "Gemini Error:" error ;;
         ret "Error generating AI analysis. Please review manually.").

Inductive RefineContext : Type :=
| scope
| background.

Definition refinePrompt (text : string) (context : RefineContext) : string :=
  nl ++
  "      You are a senior contract administrator in the Oil & Gas industry." ++ nl ++
  "      Rewrite the following rough text to be professional, precise, and legally sound." ++ nl ++
  "      " ++ nl ++
  "      Context: " ++
  match context with
  | scope => "Scope of Work Description"
  | background => "Executive Business Case/Background"
  end ++ nl ++
  "      Input Text: " ++ dquote ++ text ++ dquote ++ nl ++
  "      " ++ nl ++
  "      Rules:" ++ nl ++
  "      - Improve clarity and professional tone." ++ nl ++
  "      - Fix grammar." ++ nl ++
  "      - Keep it concise but detailed enough for a legal contract." ++ nl ++
  "      - Do not add made-up details, just refine what is there." ++ nl ++
  "      - Return ONLY the rewritten text, no conversational filler." ++ nl ++
  "    ".

Definition refineContractText (env : Env) (text : string)
  (context : RefineContext) : M string :=
  let apiKey := getApiKey env in
  if negb (JS.truthy apiKey) || negb (JS.truthy text)
     || (Z.of_nat (String.length text) <? 5)
  then ret text
  else
    tryCatch
      (let prompt := refinePrompt text context in
       response <- lift (generateContent env apiKey "gemini-2.5-flash" prompt) ;;
       ret (textOr response text))
      (fun error =>
         _ <- consoleError "Gemini Refine Error:" error ;;
         ret text).

End GeminiService.

(* ================================================================= *)
(** ** The vocabulary of the specification *)

(** The two triggers the creation code can push. *)
Definition trigger_OPEX_1M : RiskTrigger.t :=
  RiskTrigger.mk "t1" FINANCIAL "OPEX > USD 1M" true.

Definition trigger_CAPEX_5M : RiskTrigger.t :=
  RiskTrigger.mk "t2" FINANCIAL "CAPEX > USD 5M" true.

(** The entity filter as the user sees it: every entity, or one of them. *)
Inductive EntityChoice : Type :=
| AllEntities
| OnlyEntity (e : Entity).

(** The state value a choice is stored as. *)
Definition entityChoiceValue (ec : EntityChoice) : string :=
  match ec with
  | AllEntities => "ALL"
  | OnlyEntity e => flagLabel e
  end.





(** The three fields the search reads are ASCII text. *)
Definition asciiFields (c : ContractData) : bool :=
  JS.isAscii (contractorName c) && JS.isAscii (id c)
  && JS.isAscii (scopeOfWork c).




(** The dashboard state that holds the given filter choices. *)
Definition stateOf (statusValue : ContractStatus -> string)
  (ec : EntityChoice) (so : StatusOption) (highRiskOnly : bool)
  (term : string) (order : SortOrder) (page size : Z) : DashboardState :=
  {| selectedEntity := entityChoiceValue ec;
     selectedStatus := optionValue statusValue so;
     isHighRiskFilter := highRiskOnly;
     searchTerm := term;
     sortOrder := order;
     currentPage := page;
     itemsPerPage := size |}.

(** Some occurrence of [a] comes before some occurrence of [b] in [l]. *)
Definition precedes {A : Type} (l : list A) (a b : A) : Prop :=
  exists l1 l2 l3, l = (l1 ++ a :: l2 ++ b :: l3)%list.

(** The order the comparator of the date sort decides. *)
Definition inDateOrder (order : SortOrder) (a b : ContractData) : Prop :=
  match order with
  | asc => dateOrZero a <= dateOrZero b
  | desc => dateOrZero b <= dateOrZero a
  end.

(** The submission timestamps of [a] and [b], read off the records, are in
    the order asked for. *)
Definition timestampsInOrder (order : SortOrder) (a b : ContractData) : Prop :=
  forall ta tb,
    submissionDate a = Some ta -> submissionDate b = Some tb ->
    match order with
    | asc => ta <= tb
    | desc => tb <= ta
    end.

(** The contracts of [l] whose submission timestamp is [t], in the order [l]
    has them. *)
Definition submittedAt (t : Z) (l : list ContractData) : list ContractData :=
  filter (fun c => match submissionDate c with
                   | Some d => d =? t
                   | None => false
                   end) l.

(** The contracts of [l] that have no submission timestamp. *)
Definition neverSubmitted (l : list ContractData) : list ContractData :=
  filter (fun c => match submissionDate c with
                   | Some _ => false
                   | None => true
                   end) l.

(** The sum of [amount] over a collection. *)
Fixpoint sumOfAmounts (l : list ContractData) : Z :=
  match l with
  | [] => 0
  | c :: l' => amount c + sumOfAmounts l'
  end.

(** The magnitudes of the amounts of a collection, added up. *)
Fixpoint sumOfMagnitudes (l : list ContractData) : Z :=
  match l with
  | [] => 0
  | c :: l' => Z.abs (amount c) + sumOfMagnitudes l'
  end.

(** The contracts of an entity. *)
Definition ofEntity (e : Entity) (l : list ContractData) : list ContractData :=
  filter (fun c => Entity_eqb (entity c) e) l.

(** How many contracts of [l] are in status [s]. *)
Fixpoint countInStatus (s : ContractStatus) (l : list ContractData) : nat :=
  match l with
  | [] => 0%nat
  | c :: l' =>
      if ContractStatus_eqb (status c) s then S (countInStatus s l')
      else countInStatus s l'
  end.

(** The statuses the status chart has a bar for. *)
Definition charted (s : ContractStatus) : bool :=
  match s with
  | SUBMITTED | PENDING_CEO | APPROVED | REJECTED => true
  | DRAFT | CHANGES_REQUESTED => false
  end.

(** The bars of a chart that are about status [s]. *)
Definition bucketsOf (s : ContractStatus) (data : list StatusBucket)
  : list StatusBucket :=
  filter (fun d => ContractStatus_eqb (bucketStatus d) s) data.

(** The total of the bars of the spend chart. *)
Fixpoint sumOfSpend (data : list SpendBucket) : Z :=
  match data with
  | [] => 0
  | d :: data' => spendValue d + sumOfSpend data'
  end.

(** Modelled from the spec: string values for the [ContractStatus] members,
    which [types.ts] (not among the sources) declares; the names are the
    spec's state names.  Only the examples that need some concrete values use
    them. *)
Definition sampleStatusValue (s : ContractStatus) : string :=
  match s with
  | DRAFT => "Draft"
  | SUBMITTED => "Submitted"
  | PENDING_CEO => "PendingCEO"
  | CHANGES_REQUESTED => "ChangesRequested"
  | APPROVED => "Approved"
  | REJECTED => "Rejected"
  end.

(** The page numbers [1 .. pages]. *)
Definition pageNumbers (pages : Z) : list Z :=
  map Z.of_nat (seq 1 (Z.to_nat pages)).

(** The total of the bars of the status chart. *)
Fixpoint sumOfBuckets (data : list StatusBucket) : nat :=
  match data with
  | [] => 0%nat
  | d :: data' => (bucketCount d + sumOfBuckets data')%nat
  end.

(** A catalog entry once it has fired. *)
Definition asTriggered (t : RiskTrigger.t) : RiskTrigger.t :=
  RiskTrigger.mk (RiskTrigger.id t) (RiskTrigger.category t)
    (RiskTrigger.description t) true.

(** A contract that has not been submitted yet: the same record with
    [submissionDate] left undefined. *)
Definition withoutSubmissionDate (c : ContractData) : ContractData :=
  {| id := id c;
     entity := entity c;
     department := department c;
     contractorName := contractorName c;
     contractType := contractType c;
     amount := amount c;
     currency := currency c;
     startDate := startDate c;
     endDate := endDate c;
     hasExtensionOptions := hasExtensionOptions c;
     scopeOfWork := scopeOfWork c;
     backgroundNeed := backgroundNeed c;
     tenderProcessSummary := tenderProcessSummary c;
     specialConsiderations := specialConsiderations c;
     technicalEvalSummary := technicalEvalSummary c;
     commercialEvalSummary := commercialEvalSummary c;
     deviationsDescription := deviationsDescription c;
     isStandardTerms := isStandardTerms c;
     liabilityCapPercent := liabilityCapPercent c;
     isSubcontracting := isSubcontracting c;
     subcontractingPercent := subcontractingPercent c;
     riskDescription := riskDescription c;
     mitigationMeasures := mitigationMeasures c;
     priceStructure := priceStructure c;
     status := status c;
     submitterId := submitterId c;
     submissionDate := None;
     detectedTriggers := detectedTriggers c;
     isHighRisk := isHighRisk c;
     ddqNumber := ddqNumber c;
     ddqDate := ddqDate c;
     ddqValidityDate := ddqValidityDate c;
     otherChecksDetails := otherChecksDetails c |}.

(** A concrete seed collection for the examples: a fixed clock reading and
    offsets that grow with the position in the array. *)
Definition sampleContracts : list ContractData :=
  MOCK_CONTRACTS (fun _ => 1700000000000) (fun k => Z.of_nat k * 1000000).

(* ================================================================= *)
(** * Properties *)

(** ** Risk triggers at contract creation *)

Lemma detectTriggers_cases (ty : ContractType) (a : Z) :
  detectTriggers ty a =
    match ty with
    | OPEX => if 1000000 <? a
              then [RiskTrigger.mk "t1" FINANCIAL "OPEX > USD 1M" true]
              else []
    | CAPEX => if 5000000 <? a
               then [RiskTrigger.mk "t2" FINANCIAL "CAPEX > USD 5M" true]
               else []
    end.
Proof.
  unfold detectTriggers.
  destruct ty; simpl; destruct (_ <? a); reflexivity.
Qed.

Lemma createMockContract_triggers submitted i e st a title :
  detectedTriggers (createMockContract submitted i e st a title) =
    if 5000000 <? a then [trigger_CAPEX_5M]
    else if 1000000 <? a then [trigger_OPEX_1M]
    else [].
Proof.
  cbn [createMockContract detectedTriggers].
  rewrite detectTriggers_cases.
  destruct (5000000 <? a); reflexivity.
Qed.

Lemma createMockContract_isHighRisk submitted i e st a title :
  isHighRisk (createMockContract submitted i e st a title) =
    nonEmpty (detectedTriggers (createMockContract submitted i e st a title)).
Proof. reflexivity. Qed.

(** C1.  Every contract [createMockContract] builds, and every contract of
    the seed collection [MOCK_CONTRACTS], has [isHighRisk] set exactly when
    its [detectedTriggers] is not empty. *)
Theorem isHighRisk_iff_detectedTriggers_nonempty :
  (forall submitted i e st a title,
      let c := createMockContract submitted i e st a title in
      isHighRisk c = true <-> (0 < List.length (detectedTriggers c))%nat)
  /\ (forall now rnd c,
         In c (MOCK_CONTRACTS now rnd) ->
         isHighRisk c = true <-> (0 < List.length (detectedTriggers c))%nat).
Proof.
  assert (created : forall submitted i e st a title,
             let c := createMockContract submitted i e st a title in
             isHighRisk c = true <-> (0 < List.length (detectedTriggers c))%nat).
  { intros submitted i e st a title c. subst c.
    rewrite createMockContract_isHighRisk. unfold nonEmpty.
    rewrite Z.ltb_lt. lia. }
  split; [exact created|].
  intros now rnd c Hin.
  unfold MOCK_CONTRACTS in Hin.
  repeat (destruct Hin as [<- | Hin]; [first [apply created | cbn; split; [lia | reflexivity] | cbn; split; [discriminate | lia]] |]).
  destruct Hin.
Qed.

(** C2.  The trigger block computes the two financial triggers and nothing
    else: a trigger is detected exactly when it is the OPEX > 1M trigger for
    an OPEX amount above 1,000,000 or the CAPEX > 5M trigger for a CAPEX
    amount above 5,000,000; 6,000,000 as CAPEX gives the single CAPEX trigger
    and a high-risk result, 6,000,000 as OPEX gives the single OPEX trigger,
    and 500,000 as OPEX gives no trigger and a result that is not high-risk.
    The contracts [createMockContract] builds for 6,000,000 and for 500,000
    are the CAPEX and the OPEX case. *)
Theorem detectTriggers_two_financial_rules :
  (forall ty a t,
      In t (detectTriggers ty a) <->
      (ty = OPEX /\ 1000000 < a /\ t = trigger_OPEX_1M)
      \/ (ty = CAPEX /\ 5000000 < a /\ t = trigger_CAPEX_5M))
  /\ (forall ty a, (List.length (detectTriggers ty a) <= 1)%nat)
  /\ (detectTriggers CAPEX 6000000 = [trigger_CAPEX_5M]
      /\ nonEmpty (detectTriggers CAPEX 6000000) = true)
  /\ detectTriggers OPEX 6000000 = [trigger_OPEX_1M]
  /\ (detectTriggers OPEX 500000 = []
      /\ nonEmpty (detectTriggers OPEX 500000) = false)
  /\ (forall submitted i e st title,
         let big := createMockContract submitted i e st 6000000 title in
         let small := createMockContract submitted i e st 500000 title in
         (contractType big = CAPEX
          /\ detectedTriggers big = [trigger_CAPEX_5M]
          /\ isHighRisk big = true)
         /\ (contractType small = OPEX
             /\ detectedTriggers small = []
             /\ isHighRisk small = false)).
Proof.
  split; [| split; [| repeat split]].
  - intros ty a t. rewrite detectTriggers_cases.
    destruct ty; destruct (_ <? a) eqn:E;
      [apply Z.ltb_lt in E | apply Z.ltb_ge in E
      |apply Z.ltb_lt in E | apply Z.ltb_ge in E]; simpl;
      (split;
       [ intros H; try (destruct H as [<- | []]); try contradiction; tauto
       | intros [(Hty & Ha & ->) | (Hty & Ha & ->)];
         try discriminate; try lia; auto ]).
  - intros ty a. rewrite detectTriggers_cases.
    destruct ty; destruct (_ <? a); simpl; lia.
Qed.

(** C8.  [createMockContract] derives the type from the amount: CAPEX exactly
    when the amount exceeds 5,000,000, OPEX otherwise. *)
Theorem contractType_derived_from_amount :
  forall submitted i e st a title,
    let c := createMockContract submitted i e st a title in
    (contractType c = CAPEX <-> 5000000 < a)
    /\ (contractType c = OPEX <-> a <= 5000000).
Proof.
  intros submitted i e st a title c. subst c.
  cbn [createMockContract contractType].
  destruct (5000000 <? a) eqn:E;
    [apply Z.ltb_lt in E | apply Z.ltb_ge in E];
    (split; split; intros H; try discriminate; try reflexivity; lia).
Qed.

(** C10.  A contract built by [createMockContract] has at most one detected
    trigger and is high-risk exactly when its amount exceeds 1,000,000:
    amounts above 1,000,000 and up to 5,000,000 fire only "OPEX > 1M",
    amounts above 5,000,000 fire only "CAPEX > 5M", and every CAPEX contract
    is high-risk. *)
Theorem createMockContract_risk_by_amount :
  forall submitted i e st a title,
    let c := createMockContract submitted i e st a title in
    (List.length (detectedTriggers c) <= 1)%nat
    /\ (isHighRisk c = true <-> 1000000 < a)
    /\ (1000000 < a <= 5000000 -> detectedTriggers c = [trigger_OPEX_1M])
    /\ (5000000 < a -> detectedTriggers c = [trigger_CAPEX_5M])
    /\ (contractType c = CAPEX -> isHighRisk c = true).
Proof.
  intros submitted i e st a title c. subst c.
  rewrite createMockContract_isHighRisk, createMockContract_triggers.
  cbn [createMockContract contractType].
  destruct (5000000 <? a) eqn:E5;
    [apply Z.ltb_lt in E5 | apply Z.ltb_ge in E5];
    (destruct (1000000 <? a) eqn:E1;
     [apply Z.ltb_lt in E1 | apply Z.ltb_ge in E1]);
    cbn; repeat split; intros; try lia; try reflexivity; try discriminate.
Qed.

(* ----------------------------------------------------------------- *)
(** ** Strings: what [includes] and [toLowerCase] compute *)

Lemma startsWith_iff (s p : string) :
  JS.startsWith s p = true <-> exists post, s = p ++ post.
Proof.
  revert s. induction p as [|a p IH]; intros s; simpl.
  - split; [intros _; exists s; reflexivity | reflexivity].
  - destruct s as [|b s].
    + split; [discriminate | intros [post H]; discriminate].
    + rewrite andb_true_iff, Ascii.eqb_eq, IH. split.
      * intros [-> [post ->]]. exists post. reflexivity.
      * intros [post H]. injection H as -> ->. eauto.
Qed.

Lemma includes_iff (s sub : string) :
  JS.includes s sub = true <-> exists pre post, s = pre ++ sub ++ post.
Proof.
  induction s as [|b s IH]; simpl; rewrite orb_true_iff, startsWith_iff.
  - split.
    + intros [[post H] | H]; [|discriminate].
      exists EmptyString, post. exact H.
    + intros [pre [post H]]. left.
      destruct pre; [exists post; exact H | discriminate].
  - rewrite IH. split.
    + intros [[post H] | [pre [post ->]]].
      * exists EmptyString, post. exact H.
      * exists (String b pre), post. reflexivity.
    + intros [pre [post H]]. destruct pre as [|c pre]; simpl in H.
      * left. exists post. exact H.
      * right. injection H as -> ->. eauto.
Qed.

Lemma toLowerCase_app (x y : string) :
  JS.toLowerCase (x ++ y) = JS.toLowerCase x ++ JS.toLowerCase y.
Proof.
  induction x as [|c x IH]; simpl; [reflexivity | now rewrite IH].
Qed.








(* ----------------------------------------------------------------- *)
(** ** Lists: filters, the stable sort, and order of occurrence *)

Lemma filter_filter_andb {A : Type} (p q : A -> bool) (l : list A) :
  filter q (filter p l) = filter (fun x => p x && q x) l.
Proof.
  induction l as [|x l IH]; simpl; [reflexivity|].
  destruct (p x); simpl; [destruct (q x)|]; now rewrite IH.
Qed.

Lemma filter_all_true {A : Type} (p : A -> bool) (l : list A) :
  (forall x, p x = true) -> filter p l = l.
Proof.
  intros H. induction l as [|x l IH]; simpl; [reflexivity|].
  now rewrite H, IH.
Qed.

Section SortFacts.
Context {A : Type}.
Variable compareFn : A -> A -> Z.

Lemma insert_permutation (x : A) (l : list A) :
  Permutation (JS.insert compareFn x l) (x :: l).
Proof.
  induction l as [|y l IH]; simpl; [reflexivity|].
  destruct (compareFn x y <=? 0); [reflexivity|].
  rewrite IH. apply perm_swap.
Qed.

Lemma sort_permutation (l : list A) :
  Permutation (JS.sort compareFn l) l.
Proof.
  induction l as [|x l IH]; simpl; [reflexivity|].
  rewrite insert_permutation. now apply perm_skip.
Qed.

(** Elements that compare equal to one another stay as they were: the
    sort is stable. *)
Lemma insert_filter (p : A -> bool) (x : A) (l : list A) :
  (forall y, p x = true -> p y = true -> compareFn x y <= 0) ->
  filter p (JS.insert compareFn x l) = filter p (x :: l).
Proof.
  intros Hp. induction l as [|y l IH]; simpl; [reflexivity|].
  destruct (compareFn x y <=? 0) eqn:E; [reflexivity|].
  apply Z.leb_gt in E. simpl in IH |- *. rewrite IH.
  destruct (p x) eqn:Px; [|reflexivity].
  destruct (p y) eqn:Py; [|reflexivity].
  specialize (Hp y eq_refl Py). lia.
Qed.

Lemma sort_filter (p : A -> bool) (l : list A) :
  (forall x y, p x = true -> p y = true -> compareFn x y <= 0) ->
  filter p (JS.sort compareFn l) = filter p l.
Proof.
  intros Hp. induction l as [|x l IH]; simpl; [reflexivity|].
  rewrite insert_filter by (intros y; apply Hp).
  simpl. now rewrite IH.
Qed.

Hypothesis compare_total : forall a b, 0 < compareFn a b -> compareFn b a <= 0.
Hypothesis compare_trans :
  forall a b c, compareFn a b <= 0 -> compareFn b c <= 0 -> compareFn a c <= 0.

Lemma insert_sorted (x : A) (l : list A) :
  StronglySorted (fun a b => compareFn a b <= 0) l ->
StronglySorted (fun a b => compareFn a b <= 0) (JS.insert compareFn x l).
Proof.
  induction 1 as [|y l Hs IH Hy]; simpl.
  - repeat constructor.
  - destruct (compareFn x y <=? 0) eqn:E.
    + apply Z.leb_le in E. constructor; [now constructor|].
      constructor; [exact E|].
      eapply Forall_impl; [|exact Hy].
      intros z Hz. eapply compare_trans; eassumption.
    + apply Z.leb_gt in E. constructor; [exact IH|].
      rewrite (insert_permutation x l). constructor; [|exact Hy].
      now apply compare_total.
Qed.

Lemma sort_sorted (l : list A) :
  StronglySorted (fun a b => compareFn a b <= 0) (JS.sort compareFn l).
Proof.
  induction l as [|x l IH]; simpl; [constructor | now apply insert_sorted].
Qed.
End SortFacts.

Section Precedes.
Context {A : Type}.

Lemma precedes_in (l : list A) (a b : A) :
  precedes l a b -> In a l /\ In b l.
Proof.
  intros (l1 & l2 & l3 & ->). split.
  - apply in_or_app. right. now left.
  - apply in_or_app. right. right. apply in_or_app. right. now left.
Qed.

Lemma in_in_precedes (l : list A) (a b : A) :
  In a l -> In b l -> a <> b -> precedes l a b \/ precedes l b a.
Proof.
  intros Ha Hb Hab.
  apply in_split in Ha. destruct Ha as (l1 & l2 & ->).
  apply in_app_or in Hb. destruct Hb as [Hb | [Hb | Hb]].
  - right. apply in_split in Hb. destruct Hb as (m1 & m2 & ->).
    exists m1, m2, l2. now rewrite <- app_assoc.
  - contradiction.
  - left. apply in_split in Hb. destruct Hb as (m1 & m2 & ->).
    exists l1, m1, m2. reflexivity.
Qed.

Lemma sorted_precedes (R : A -> A -> Prop) (l : list A) (a b : A) :
  StronglySorted R l -> precedes l a b -> R a b.
Proof.
  intros Hs (l1 & l2 & l3 & ->).
  induction l1 as [|x l1 IH]; simpl in Hs.
  - apply StronglySorted_inv in Hs. destruct Hs as [_ Hall].
    rewrite Forall_forall in Hall. apply Hall.
    apply in_or_app. right. now left.
  - apply StronglySorted_inv in Hs. now apply IH.
Qed.
End Precedes.

(* ----------------------------------------------------------------- *)
(** ** The filtered and sorted register *)

Lemma compareByDate_le (o : SortOrder) (a b : ContractData) :
  compareByDate o a b <= 0 <-> inDateOrder o a b.
Proof. unfold compareByDate, inDateOrder. destruct o; lia. Qed.

Lemma compareByDate_total (o : SortOrder) (a b : ContractData) :
  0 < compareByDate o a b -> compareByDate o b a <= 0.
Proof. unfold compareByDate. destruct o; lia. Qed.

Lemma compareByDate_trans (o : SortOrder) (a b c : ContractData) :
  compareByDate o a b <= 0 -> compareByDate o b c <= 0 ->
  compareByDate o a c <= 0.
Proof. unfold compareByDate. destruct o; lia. Qed.

Lemma sort_by_date_sorted (o : SortOrder) (l : list ContractData) :
  StronglySorted (inDateOrder o) (JS.sort (compareByDate o) l).
Proof.
  pose proof (sort_sorted (compareByDate o) (compareByDate_total o)
                (compareByDate_trans o) l) as H.
  induction H as [|x m Hs IH Hall]; constructor; [exact IH|].
  eapply Forall_impl; [|exact Hall].
  intros y. apply compareByDate_le.
Qed.

Lemma filteredContracts_sort_filter statusValue contracts st :
  filteredContracts statusValue contracts st =
    JS.sort (compareByDate (sortOrder st))
      (filter (keeps statusValue st) contracts).
Proof.
  unfold filteredContracts, keeps. f_equal.
  destruct (negb (selectedEntity st =? "ALL")%string);
    destruct (selectedStatus st =? "REVIEW")%string;
    destruct (negb (selectedStatus st =? "ALL")%string);
    destruct (isHighRiskFilter st);
    destruct (JS.truthy (searchTerm st));
    rewrite ?filter_filter_andb;
    first [ apply filter_ext; intros c; btauto
          | symmetry; apply filter_all_true; reflexivity ].
Qed.

Lemma filteredContracts_permutation statusValue contracts st :
  Permutation (filteredContracts statusValue contracts st)
    (filter (keeps statusValue st) contracts).
Proof.
  rewrite filteredContracts_sort_filter. apply sort_permutation.
Qed.

Lemma Entity_eqb_eq (a b : Entity) : Entity_eqb a b = true <-> a = b.
Proof. destruct a, b; simpl; split; congruence. Qed.

Lemma ContractStatus_eqb_eq (a b : ContractStatus) :
  ContractStatus_eqb a b = true <-> a = b.
Proof. destruct a, b; simpl; split; congruence. Qed.







Section FilterCorrect.

Variable statusValue : ContractStatus -> string.

(** What [types.ts] has to provide for the status select to work: distinct
    members have distinct values, and no value is one of the two fixed
    options. *)
Hypothesis statusValue_injective :
  forall s s', statusValue s = statusValue s' -> s = s'.
Hypothesis statusValue_not_ALL : forall s, statusValue s <> "ALL".
Hypothesis statusValue_not_REVIEW : forall s, statusValue s <> "REVIEW".




End FilterCorrect.

Lemma sampleStatusValue_injective (s s' : ContractStatus) :
  sampleStatusValue s = sampleStatusValue s' -> s = s'.
Proof. destruct s, s'; simpl; intros H; (reflexivity || discriminate H). Defined.

Lemma sampleStatusValue_not_ALL (s : ContractStatus) :
  sampleStatusValue s <> "ALL".
Proof. destruct s; simpl; discriminate. Defined.

Lemma sampleStatusValue_not_REVIEW (s : ContractStatus) :
  sampleStatusValue s <> "REVIEW".
Proof. destruct s; simpl; discriminate. Defined.


(* ----------------------------------------------------------------- *)
(** ** The date sort *)

Lemma sameDependencies_refl (st : DashboardState) :
  sameDependencies st st = true.
Proof.
  unfold sameDependencies.
  now rewrite !String.eqb_refl, Z.eqb_refl, eqb_reflx.
Qed.

Lemma step_SortHeaderClick statusValue contracts st :
  step statusValue contracts st SortHeaderClick =
    setSortOrder (toggleSortOrder (sortOrder st)) st.
Proof.
  unfold step, resetPagination, handle.
  pose proof (sameDependencies_refl st) as H.
  unfold sameDependencies in *. cbn. now rewrite H.
Qed.

Lemma filteredContracts_toggled statusValue contracts st :
  filteredContracts statusValue contracts
    (step statusValue contracts st SortHeaderClick) =
    JS.sort (compareByDate (toggleSortOrder (sortOrder st)))
      (filter (keeps statusValue st) contracts).
Proof.
  rewrite step_SortHeaderClick, filteredContracts_sort_filter. reflexivity.
Qed.

Lemma toggle_reverses (o : SortOrder) (l : list ContractData) (a b : ContractData) :
  dateOrZero a <> dateOrZero b ->
  precedes (JS.sort (compareByDate o) l) a b ->
  precedes (JS.sort (compareByDate (toggleSortOrder o)) l) b a.
Proof.
  intros Hne Hab.
  pose proof (sorted_precedes _ _ _ _ (sort_by_date_sorted o l) Hab) as Ho.
  apply precedes_in in Hab. destruct Hab as [Ha Hb].
  assert (Hin : forall c, In c (JS.sort (compareByDate o) l) ->
                          In c (JS.sort (compareByDate (toggleSortOrder o)) l)).
  { intros c Hc. eapply Permutation_in; [|exact Hc].
    rewrite !sort_permutation. reflexivity. }
  destruct (in_in_precedes _ a b (Hin _ Ha) (Hin _ Hb)) as [Hab' | Hba'].
  - congruence.
  - pose proof (sorted_precedes _ _ _ _
                  (sort_by_date_sorted (toggleSortOrder o) l) Hab') as Ho'.
    destruct o; simpl in Ho, Ho'; lia.
  - exact Hba'.
Qed.

Lemma dateOrZero_submitted (c : ContractData) (t : Z) :
  submissionDate c = Some t -> dateOrZero c = t.
Proof.
  intros H. unfold dateOrZero. rewrite H.
  destruct (Z.eqb_spec t 0); congruence.
Qed.

Lemma dateOrZero_neverSubmitted (c : ContractData) :
  submissionDate c = None -> dateOrZero c = 0.
Proof. intros H. unfold dateOrZero. now rewrite H. Qed.

Lemma inDateOrder_timestamps (o : SortOrder) (a b : ContractData) :
  inDateOrder o a b -> timestampsInOrder o a b.
Proof.
  intros H ta tb Ha Hb. unfold inDateOrder in H.
  rewrite (dateOrZero_submitted a ta Ha), (dateOrZero_submitted b tb Hb) in H.
  exact H.
Qed.

Lemma StronglySorted_weaken {A : Type} (R S : A -> A -> Prop) (l : list A) :
  (forall a b, R a b -> S a b) -> StronglySorted R l -> StronglySorted S l.
Proof.
  intros HRS. induction 1 as [|x l Hs IH Hx]; constructor; [exact IH|].
  eapply Forall_impl; [|exact Hx]. intros y. apply HRS.
Qed.

(** C4.  The register is sorted by the submission timestamps the contracts
    carry, in the selected direction; the sort is stable (in either
    direction, the contracts that share a timestamp, and those that have
    none, come in the order the collection has them); and clicking the date
    header reverses the order of any two contracts whose timestamps
    differ. *)
Theorem filteredContracts_sorted_stable :
  forall statusValue contracts st,
    let shown := filteredContracts statusValue contracts st in
    let toggled :=
      filteredContracts statusValue contracts
        (step statusValue contracts st SortHeaderClick) in
    StronglySorted (timestampsInOrder (sortOrder st)) shown
    /\ (forall t,
           submittedAt t shown
           = filter (keeps statusValue st) (submittedAt t contracts))
    /\ neverSubmitted shown
       = filter (keeps statusValue st) (neverSubmitted contracts)
    /\ (forall t, submittedAt t toggled = submittedAt t shown)
    /\ neverSubmitted toggled = neverSubmitted shown
    /\ (forall a b ta tb,
           submissionDate a = Some ta -> submissionDate b = Some tb ->
           ta <> tb ->
           (precedes shown a b <-> precedes toggled b a)).
Proof.
  intros statusValue contracts st shown toggled.
  assert (stable : forall o t l,
             submittedAt t (JS.sort (compareByDate o) l) = submittedAt t l).
  { intros o t l. unfold submittedAt. apply sort_filter.
    intros x y Hx Hy.
    destruct (submissionDate x) as [dx|] eqn:Ex; [|discriminate].
    destruct (submissionDate y) as [dy|] eqn:Ey; [|discriminate].
    apply Z.eqb_eq in Hx, Hy. unfold compareByDate.
    rewrite (dateOrZero_submitted x dx Ex), (dateOrZero_submitted y dy Ey).
    destruct o; lia. }
  assert (stable' : forall o l,
             neverSubmitted (JS.sort (compareByDate o) l) = neverSubmitted l).
  { intros o l. unfold neverSubmitted. apply sort_filter.
    intros x y Hx Hy.
    destruct (submissionDate x) eqn:Ex; [discriminate|].
    destruct (submissionDate y) eqn:Ey; [discriminate|].
    unfold compareByDate.
    rewrite (dateOrZero_neverSubmitted x Ex), (dateOrZero_neverSubmitted y Ey).
    destruct o; lia. }
  subst shown toggled.
  rewrite filteredContracts_toggled, filteredContracts_sort_filter.
  split.
  { eapply StronglySorted_weaken; [|apply sort_by_date_sorted].
    apply inDateOrder_timestamps. }
  split; [|split; [|split; [|split]]].
  - intros t. rewrite stable. unfold submittedAt.
    rewrite !filter_filter_andb. apply filter_ext. intros c. btauto.
  - rewrite stable'. unfold neverSubmitted.
    rewrite !filter_filter_andb. apply filter_ext. intros c. btauto.
  - intros t. now rewrite !stable.
  - now rewrite !stable'.
  - intros a b ta tb Ha Hb Hne.
    assert (Hdate : dateOrZero a <> dateOrZero b).
    { now rewrite (dateOrZero_submitted a ta Ha),
        (dateOrZero_submitted b tb Hb). }
    split; intros H.
    + now apply toggle_reverses.
    + apply toggle_reverses in H; [|congruence].
      now destruct (sortOrder st).
Qed.

(* ----------------------------------------------------------------- *)
(** ** The KPI metrics *)

Lemma roundToDouble_exact (z : Z) :
  Z.abs z <= 9007199254740992 -> JS.roundToDouble z = z.
Proof.
  intros H. unfold JS.roundToDouble. cbv zeta.
  apply Z.leb_le in H. now rewrite H.
Qed.

Lemma sumOfMagnitudes_nonneg (l : list ContractData) : 0 <= sumOfMagnitudes l.
Proof. induction l as [|c l IH]; cbn; lia. Qed.

Lemma sumOfMagnitudes_filter (p : ContractData -> bool) (l : list ContractData) :
  sumOfMagnitudes (filter p l) <= sumOfMagnitudes l.
Proof.
  induction l as [|c l IH]; cbn; [lia|].
  destruct (p c); cbn; lia.
Qed.

(** While the magnitudes stay within 2^53 no addition rounds. *)
Lemma fold_left_amount (l : list ContractData) (acc : Z) :
  Z.abs acc + sumOfMagnitudes l <= 9007199254740992 ->
  fold_left (fun acc c => JS.add acc (amount c)) l acc = acc + sumOfAmounts l.
Proof.
  revert acc. induction l as [|c l IH]; intros acc H; cbn in *; [lia|].
  pose proof (sumOfMagnitudes_nonneg l).
  unfold JS.add at 2. rewrite roundToDouble_exact by lia.
  rewrite IH by lia. lia.
Qed.

Lemma reduce_sum_amount (l : list ContractData) :
  sumOfMagnitudes l <= 9007199254740992 ->
  JS.reduce_sum amount l = sumOfAmounts l.
Proof.
  intros H. unfold JS.reduce_sum. rewrite fold_left_amount; cbn; lia.
Qed.

Lemma sumOfAmounts_by_entity (l : list ContractData) :
  sumOfAmounts (ofEntity LONDON l) + sumOfAmounts (ofEntity BRAZIL l)
  + sumOfAmounts (ofEntity CONGO l)
  + sumOfAmounts (ofEntity EQUATORIAL_GUINEA l)
  = sumOfAmounts l.
Proof.
  unfold ofEntity. induction l as [|c l IH]; simpl; [reflexivity|].
  destruct (entity c); simpl; lia.
Qed.

Lemma length_filter_status (s : ContractStatus) (l : list ContractData) :
  List.length (filter (fun c => ContractStatus_eqb (status c) s) l)
  = countInStatus s l.
Proof.
  induction l as [|c l IH]; simpl; [reflexivity|].
  destruct (ContractStatus_eqb (status c) s); simpl; now rewrite IH.
Qed.

Lemma length_filter_underReview (l : list ContractData) :
  List.length (filter underReview l)
  = (countInStatus SUBMITTED l + countInStatus PENDING_CEO l)%nat.
Proof.
  unfold underReview. induction l as [|c l IH]; simpl; [reflexivity|].
  destruct (status c); simpl; rewrite IH; lia.
Qed.

Lemma kpiBaseContracts_choice statusValue contracts ec so hr term order page size :
  kpiBaseContracts contracts
    (stateOf statusValue ec so hr term order page size)
  = match ec with
    | AllEntities => contracts
    | OnlyEntity e => ofEntity e contracts
    end.
Proof.
  unfold kpiBaseContracts, stateOf. cbn [selectedEntity].
  destruct ec as [|e]; [reflexivity|].
  unfold ofEntity. destruct e; cbn; apply filter_ext; intros c; reflexivity.
Qed.

(** C5, as the spec words it, fails: amounts are added as doubles, which
    round from 2^53 on.  With amounts 1, 2^53 and 1 (Brazil, London, Brazil)
    the total value comes out as 2^53, while the amounts add up to 2^53 + 2
    and so do the bars of the spend chart. *)
Lemma metrics_exact_sums_counterexample :
  ~ (forall contracts,
        let m := metrics contracts initialState in
        totalValue m = sumOfAmounts contracts
        /\ sumOfSpend (spendData m) = totalValue m).
Proof.
  intros H.
  specialize (H [ createMockContract 0 "CNT-A" BRAZIL APPROVED 1 "Alpha";
                  createMockContract 0 "CNT-B" LONDON APPROVED
                    9007199254740992 "Beta";
                  createMockContract 0 "CNT-C" BRAZIL APPROVED 1 "Gamma" ]).
  cbv zeta in H. destruct H as [H _]. vm_compute in H. discriminate H.
Qed.

(** C5, amended.  The metrics are computed from the collection and the
    entity filter alone (two states with the same entity selection give the
    same metrics, whatever their status, search and high-risk filters), and
    the under-review count is the number of base contracts that are
    Submitted or PendingCEO.  When the amounts are whole numbers whose
    magnitudes add up to at most 2^53, so that no addition of doubles
    rounds: with all entities selected the total value is the sum of
    [amount] over the collection, the four per-entity sums are the bars of
    the spend chart and add up to that total, and with one entity selected
    the total value is the sum over that entity's contracts. *)
Theorem metrics_over_entity_base :
  (forall contracts st st',
      selectedEntity st = selectedEntity st' ->
      metrics contracts st = metrics contracts st')
  /\ (forall statusValue contracts so hr term order page size,
         sumOfMagnitudes contracts <= 9007199254740992 ->
         let m := metrics contracts
                    (stateOf statusValue AllEntities so hr term order page size) in
         totalValue m = sumOfAmounts contracts
         /\ map spendValue (spendData m) =
              [ sumOfAmounts (ofEntity LONDON contracts);
                sumOfAmounts (ofEntity BRAZIL contracts);
                sumOfAmounts (ofEntity CONGO contracts);
                sumOfAmounts (ofEntity EQUATORIAL_GUINEA contracts) ]
         /\ sumOfSpend (spendData m) = totalValue m)
  /\ (forall statusValue contracts e so hr term order page size,
         sumOfMagnitudes contracts <= 9007199254740992 ->
         totalValue
           (metrics contracts
              (stateOf statusValue (OnlyEntity e) so hr term order page size))
         = sumOfAmounts (ofEntity e contracts))
  /\ (forall contracts st,
         let base := kpiBaseContracts contracts st in
         pending (metrics contracts st)
         = (countInStatus SUBMITTED base + countInStatus PENDING_CEO base)%nat).
Proof.
  split; [|split; [|split]].
  - intros contracts st st' H. unfold metrics, kpiBaseContracts.
    now rewrite H.
  - intros statusValue contracts so hr term order page size Hsafe m. subst m.
    unfold metrics. rewrite kpiBaseContracts_choice.
    unfold computeMetrics. cbn [totalValue spendData map spendValue sumOfSpend].
    fold (ofEntity LONDON contracts).
    fold (ofEntity BRAZIL contracts). fold (ofEntity CONGO contracts).
    fold (ofEntity EQUATORIAL_GUINEA contracts).
    assert (Hpart : forall e,
               sumOfMagnitudes (ofEntity e contracts) <= 9007199254740992).
    { intros e. unfold ofEntity.
      pose proof (sumOfMagnitudes_filter
                    (fun c => Entity_eqb (entity c) e) contracts). lia. }
    rewrite !reduce_sum_amount by (exact Hsafe || apply Hpart).
    split; [reflexivity|]. split; [reflexivity|].
    rewrite <- (sumOfAmounts_by_entity contracts). lia.
  - intros statusValue contracts e so hr term order page size Hsafe.
    unfold metrics. rewrite kpiBaseContracts_choice.
    unfold computeMetrics. cbn [totalValue]. apply reduce_sum_amount.
    unfold ofEntity.
    pose proof (sumOfMagnitudes_filter
                  (fun c => Entity_eqb (entity c) e) contracts). lia.
  - intros contracts st base. subst base. unfold metrics, computeMetrics.
    cbn [pending]. apply length_filter_underReview.
Qed.

Lemma metrics_over_entity_base_witness :
  let m := metrics sampleContracts
             (stateOf sampleStatusValue AllEntities OptionReview true "rig"
                asc 2 50) in
  sumOfMagnitudes sampleContracts <= 9007199254740992
  /\ (totalValue m = sumOfAmounts sampleContracts
      /\ map spendValue (spendData m) =
           [ sumOfAmounts (ofEntity LONDON sampleContracts);
             sumOfAmounts (ofEntity BRAZIL sampleContracts);
             sumOfAmounts (ofEntity CONGO sampleContracts);
             sumOfAmounts (ofEntity EQUATORIAL_GUINEA sampleContracts) ]
      /\ sumOfSpend (spendData m) = totalValue m).
Proof.
  split; [vm_compute; discriminate|].
  apply (proj1 (proj2 metrics_over_entity_base)).
  vm_compute. discriminate.
Defined.

(** The status chart, bar by bar. *)
Lemma statusData_buckets (base : list ContractData) (s : ContractStatus) :
  bucketsOf s (statusData (computeMetrics base))
  = if charted s && negb (Nat.eqb (countInStatus s base) 0)
    then [mkStatusBucket s (countInStatus s base)]
    else [].
Proof.
  unfold computeMetrics, bucketsOf. cbn [statusData].
  rewrite !length_filter_status.
  remember (countInStatus SUBMITTED base) as n1.
  remember (countInStatus PENDING_CEO base) as n2.
  remember (countInStatus APPROVED base) as n3.
  remember (countInStatus REJECTED base) as n4.
  destruct s; cbn [charted andb];
    rewrite <- ?Heqn1, <- ?Heqn2, <- ?Heqn3, <- ?Heqn4;
    destruct n1, n2, n3, n4; reflexivity.
Qed.

Lemma statusData_nonzero (base : list ContractData) :
  Forall (fun d => (0 < bucketCount d)%nat) (statusData (computeMetrics base)).
Proof.
  unfold computeMetrics. cbn [statusData].
  apply Forall_forall. intros d Hd. apply filter_In in Hd.
  destruct Hd as [_ Hd]. apply Z.ltb_lt in Hd. lia.
Qed.

(** C6, as the spec words it, fails: a collection that holds one draft has a
    non-zero Draft count and no Draft bar. *)
Lemma statusData_six_statuses_counterexample :
  ~ (forall contracts st s,
        let base := kpiBaseContracts contracts st in
        (0 < countInStatus s base)%nat ->
        bucketsOf s (statusData (metrics contracts st))
        = [mkStatusBucket s (countInStatus s base)]).
Proof.
  intros H.
  specialize (H [createMockContract 0 "CNT-2023-006" BRAZIL DRAFT 500000
                   "Waste Management"]
                initialState DRAFT).
  cbv zeta in H.
  assert (Hpos : (0 < 1)%nat) by lia.
  specialize (H Hpos). discriminate H.
Qed.

(** C6, amended.  The status chart has, for each of the four statuses
    Submitted, PendingCEO, Approved and Rejected whose count over the metrics
    base is not zero, exactly one bar, holding that count; it has no bar with
    a zero count; and it never has a bar for Draft or ChangesRequested. *)
Theorem statusData_charted_nonzero_buckets :
  forall contracts st s,
    let base := kpiBaseContracts contracts st in
    let chart := statusData (metrics contracts st) in
    bucketsOf s chart
    = (if charted s && negb (Nat.eqb (countInStatus s base) 0)
       then [mkStatusBucket s (countInStatus s base)]
       else [])
    /\ Forall (fun d => (0 < bucketCount d)%nat) chart.
Proof.
  intros contracts st s base chart. subst base chart. unfold metrics.
  split; [apply statusData_buckets | apply statusData_nonzero].
Qed.

(* ----------------------------------------------------------------- *)
(** ** Pagination reset *)

Lemma sameDependencies_iff (prev next : DashboardState) :
  sameDependencies prev next = true <->
  selectedEntity prev = selectedEntity next
  /\ selectedStatus prev = selectedStatus next
  /\ searchTerm prev = searchTerm next
  /\ itemsPerPage prev = itemsPerPage next
  /\ isHighRiskFilter prev = isHighRiskFilter next.
Proof.
  unfold sameDependencies.
  rewrite !andb_true_iff, !String.eqb_eq, Z.eqb_eq, eqb_true_iff. tauto.
Qed.

Lemma resetPagination_changed (prev next : DashboardState) :
  sameDependencies prev next = false ->
  currentPage (resetPagination prev next) = 1.
Proof. intros H. unfold resetPagination. now rewrite H. Qed.

Lemma flagLabel_not_ALL (e : Entity) : flagLabel e <> "ALL".
Proof. destruct e; discriminate. Qed.

(** C7.  After an event that changes a filter parameter (entity, status,
    search term, high-risk-only) the current page is 1; after one that
    changes the page size it is 1 as well; a click on a flag button always
    sends the register back to page 1; and a click on the date header, which
    toggles the sort order, leaves the current page as it was. *)
Theorem pagination_reset :
  forall statusValue contracts st ev,
    let requested := handle statusValue contracts st ev in
    let st' := step statusValue contracts st ev in
    ((selectedEntity requested <> selectedEntity st
      \/ selectedStatus requested <> selectedStatus st
      \/ searchTerm requested <> searchTerm st
      \/ isHighRiskFilter requested <> isHighRiskFilter st) ->
     currentPage st' = 1)
    /\ (itemsPerPage requested <> itemsPerPage st -> currentPage st' = 1)
    /\ (forall e, ev = FlagButtonClick e -> currentPage st' = 1)
    /\ (ev = SortHeaderClick ->
        currentPage st' = currentPage st
        /\ sortOrder st' = toggleSortOrder (sortOrder st)).
Proof.
  intros statusValue contracts st ev requested st'.
  assert (changed : sameDependencies st requested = false ->
                    currentPage st' = 1).
  { apply resetPagination_changed. }
  assert (differs : ~ (selectedEntity st = selectedEntity requested
                       /\ selectedStatus st = selectedStatus requested
                       /\ searchTerm st = searchTerm requested
                       /\ itemsPerPage st = itemsPerPage requested
                       /\ isHighRiskFilter st = isHighRiskFilter requested) ->
                    currentPage st' = 1).
  { intros Hd. apply changed.
    destruct (sameDependencies st requested) eqn:E; [|reflexivity].
    apply sameDependencies_iff in E. contradiction. }
  split; [|split; [|split]].
  - intros H. apply differs. intros (H1 & H2 & H3 & _ & H5).
    destruct H as [H | [H | [H | H]]]; congruence.
  - intros H. apply differs. intros (_ & _ & _ & H4 & _). congruence.
  - intros e ->. apply differs. intros (H1 & _).
    subst requested. cbn [handle selectedEntity] in H1.
    destruct (String.eqb_spec (selectedEntity st) (flagLabel e)) as [E|E].
    + rewrite E in H1. now apply flagLabel_not_ALL in H1.
    + contradiction.
  - intros ->. subst st'. rewrite step_SortHeaderClick. split; reflexivity.
Qed.

(* ----------------------------------------------------------------- *)
(** ** The AI text operations *)

Import GeminiService.

Lemma getApiKey_empty_iff (env : Env) :
  getApiKey env = EmptyString
  <-> API_KEY env = None \/ API_KEY env = Some EmptyString.
Proof.
  unfold getApiKey. destruct (API_KEY env) as [[|c k]|]; simpl; split;
    intros H; try tauto; try discriminate;
    destruct H as [H|H]; discriminate.
Qed.


(* ----------------------------------------------------------------- *)
(** ** The definitions at work on the seed collection *)

Example includes_examples :
  JS.includes "hello world" "o w" = true
  /\ JS.includes "abc" "abcd" = false
  /\ JS.includes (JS.toLowerCase "FPSO Maintenance") (JS.toLowerCase "fpso") = true.
Proof. repeat split. Qed.

Example sort_is_stable_example :
  JS.sort (fun a b => fst a - fst b) [(3, "a"); (1, "b"); (3, "c"); (1, "d")]
  = [(1, "b"); (1, "d"); (3, "a"); (3, "c")]
  /\ JS.sort (fun a b => fst b - fst a) [(3, "a"); (1, "b"); (3, "c"); (1, "d")]
     = [(3, "a"); (3, "c"); (1, "b"); (1, "d")].
Proof. split; reflexivity. Qed.

Example brazil_register_example :
  map id
    (filteredContracts sampleStatusValue sampleContracts
       (stateOf sampleStatusValue (OnlyEntity BRAZIL) OptionAll false
          EmptyString desc 1 25))
  = ["CNT-2023-003"; "CNT-2023-004"; "CNT-2023-005"; "CNT-2023-006";
     "CNT-2023-007"; "CNT-2023-001"].
Proof. vm_compute. reflexivity. Qed.

Example review_search_example :
  map id
    (filteredContracts sampleStatusValue sampleContracts
       (stateOf sampleStatusValue AllEntities OptionReview true "SE" asc 1 25))
  = ["CNT-2023-001"; "CNT-2023-021"; "CNT-2023-020"; "CNT-2023-018";
     "CNT-2023-013"; "CNT-2023-009"; "CNT-2023-007"; "CNT-2023-004"].
Proof. vm_compute. reflexivity. Qed.

Example seed_metrics_example :
  let m := metrics sampleContracts initialState in
  pending m = 11%nat
  /\ totalValue m = 128100000
  /\ highRisk m = 15%nat
  /\ statusData m =
       [ mkStatusBucket SUBMITTED 5; mkStatusBucket PENDING_CEO 6;
         mkStatusBucket APPROVED 5; mkStatusBucket REJECTED 2 ]
  /\ map spendValue (spendData m) = [17500000; 82500000; 11400000; 16700000].
Proof. vm_compute. repeat split. Qed.

Example draft_has_no_bar_example :
  let drafts := [createMockContract 0 "CNT-2023-006" BRAZIL DRAFT 500000
                   "Waste Management"] in
  countInStatus DRAFT (kpiBaseContracts drafts initialState) = 1%nat
  /\ statusData (metrics drafts initialState) = [].
Proof. split; reflexivity. Qed.

Example page_reset_example :
  let st := stateOf sampleStatusValue AllEntities OptionAll false EmptyString
              desc 3 25 in
  currentPage (step sampleStatusValue sampleContracts st
                 (SearchInputChange "rig")) = 1
  /\ currentPage (step sampleStatusValue sampleContracts st
                    (RowsPerPageChange Rows50)) = 1
  /\ currentPage (step sampleStatusValue sampleContracts st SortHeaderClick) = 3.
Proof. repeat split. Qed.

Example analysis_fallbacks_example :
  let failing := mkEnv (Some "key") (fun _ _ _ => Thrown "network down") in
  let keyless := mkEnv None (fun _ _ _ => Normal (Some "never asked")) in
  analyzeContractRisks failing (CNT_2023_002 0) []
  = (Normal "Error generating AI analysis. Please review manually.",
     ["Gemini Error: network down"])
  /\ analyzeContractRisks keyless (CNT_2023_002 0) []
     = (Normal "API Key not configured. Unable to perform AI analysis.", [])
  /\ refineContractText failing "rough text" scope []
     = (Normal "rough text", ["Gemini Refine Error: network down"])
  /\ refineContractText keyless "rough text" background []
     = (Normal "rough text", []).
Proof. repeat split. Qed.

(* ================================================================= *)
(** * Further properties of the dashboard *)

(** ** Pagination *)

Lemma chunks_concat {A : Type} (n m : nat) (l : list A) :
  (List.length l <= m * n)%nat ->
  List.concat (map (fun k => firstn n (skipn (k * n) l)) (seq 0 m)) = l.
Proof.
  revert l. induction m as [|m IH]; intros l H.
  - destruct l; [reflexivity | simpl in H; lia].
  - cbn [seq map List.concat]. rewrite <- seq_shift, map_map.
    rewrite (map_ext _ (fun k => firstn n (skipn (k * n) (skipn n l)))).
    + rewrite IH.
      * cbn [Nat.mul skipn]. apply firstn_skipn.
      * rewrite length_skipn. lia.
    + intros k. rewrite skipn_skipn. do 2 f_equal. lia.
Qed.

Lemma ceilDiv_bounds (n d : Z) :
  0 <= n -> 0 < d ->
  0 <= ceilDiv n d /\ n <= ceilDiv n d * d /\ (ceilDiv n d - 1) * d < n.
Proof.
  intros Hn Hd. unfold ceilDiv.
  pose proof (Z.mul_div_le (n + d - 1) d Hd) as Hle.
  pose proof (Z.mul_succ_div_gt (n + d - 1) d Hd) as Hgt.
  assert (0 <= (n + d - 1) / d) by (apply Z.div_pos; lia).
  repeat split; nia.
Qed.

Lemma filteredContracts_setCurrentPage statusValue contracts st p :
  filteredContracts statusValue contracts (setCurrentPage p st)
  = filteredContracts statusValue contracts st.
Proof. reflexivity. Qed.

Lemma paginatedContracts_slice statusValue contracts st :
  0 < itemsPerPage st -> 1 <= currentPage st ->
  paginatedContracts statusValue contracts st
  = firstn (Z.to_nat (itemsPerPage st))
      (skipn (Z.to_nat (currentPage st - 1) * Z.to_nat (itemsPerPage st))
         (filteredContracts statusValue contracts st)).
Proof.
  intros Hd Hp. unfold paginatedContracts. cbv zeta.
  now rewrite Z2Nat.inj_mul by lia.
Qed.

(** X1.  The pages [1 .. totalPages], one after the other, are the register: no
    row is lost between two pages and none is shown twice. *)
Theorem pages_partition_register :
  forall statusValue contracts st,
    0 < itemsPerPage st ->
    List.concat
      (map (fun p => paginatedContracts statusValue contracts
                       (setCurrentPage p st))
           (pageNumbers (totalPages statusValue contracts st)))
    = filteredContracts statusValue contracts st.
Proof.
  intros statusValue contracts st Hd.
  set (shown := filteredContracts statusValue contracts st).
  destruct (ceilDiv_bounds (Z.of_nat (List.length shown)) (itemsPerPage st))
    as (Hpos & Hcover & _); [lia | exact Hd |].
  unfold pageNumbers. rewrite <- seq_shift, !map_map.
  rewrite (map_ext _ (fun k => firstn (Z.to_nat (itemsPerPage st))
                                 (skipn (k * Z.to_nat (itemsPerPage st)) shown))).
  - apply chunks_concat. unfold totalPages. fold shown.
    rewrite <- Z2Nat.inj_mul by lia.
    rewrite <- (Nat2Z.id (List.length shown)) at 1.
    apply Z2Nat.inj_le; lia.
  - intros k. rewrite paginatedContracts_slice; cbn [setCurrentPage currentPage itemsPerPage]; try lia.
    rewrite filteredContracts_setCurrentPage. fold shown.
    do 3 f_equal. lia.
Qed.

Lemma pages_partition_register_witness :
  let st := stateOf sampleStatusValue AllEntities OptionAll false EmptyString
              desc 1 10 in
  0 < itemsPerPage st
  /\ List.concat
       (map (fun p => paginatedContracts sampleStatusValue sampleContracts
                        (setCurrentPage p st))
            (pageNumbers (totalPages sampleStatusValue sampleContracts st)))
     = filteredContracts sampleStatusValue sampleContracts st.
Proof.
  split; [reflexivity|].
  apply (pages_partition_register sampleStatusValue sampleContracts). reflexivity.
Defined.

(** X2.  A page never holds more rows than the page size; each of the pages
    [1 .. totalPages] holds at least one row; and a page past the last one is
    empty. *)
Theorem page_sizes :
  forall statusValue contracts st,
    0 < itemsPerPage st -> 1 <= currentPage st ->
    let page := paginatedContracts statusValue contracts st in
    Z.of_nat (List.length page) <= itemsPerPage st
    /\ (currentPage st <= totalPages statusValue contracts st -> page <> [])
    /\ (totalPages statusValue contracts st < currentPage st -> page = []).
Proof.
  intros statusValue contracts st Hd Hp page. subst page.
  rewrite paginatedContracts_slice by assumption.
  set (shown := filteredContracts statusValue contracts st).
  destruct (ceilDiv_bounds (Z.of_nat (List.length shown)) (itemsPerPage st))
    as (Hpos & Hcover & Hlast); [lia | exact Hd |].
  unfold totalPages. fold shown.
  set (pages := ceilDiv (Z.of_nat (List.length shown)) (itemsPerPage st)) in *.
  clearbody pages shown.
  rewrite <- Z2Nat.inj_mul by lia.
  assert (0 <= (currentPage st - 1) * itemsPerPage st)
    by (apply Z.mul_nonneg_nonneg; lia).
  split; [|split].
  - rewrite length_firstn. lia.
  - intros Hin Hnil. apply (f_equal (@List.length _)) in Hnil.
    rewrite length_firstn, length_skipn in Hnil. cbn [List.length] in Hnil.
    assert ((currentPage st - 1) * itemsPerPage st
            <= (pages - 1) * itemsPerPage st)
      by (apply Z.mul_le_mono_nonneg_r; lia).
    lia.
  - intros Hout.
    assert (pages * itemsPerPage st
            <= (currentPage st - 1) * itemsPerPage st)
      by (apply Z.mul_le_mono_nonneg_r; lia).
    rewrite skipn_all2 by lia.
    now destruct (Z.to_nat (itemsPerPage st)).
Qed.

Lemma page_sizes_witness :
  let st := stateOf sampleStatusValue AllEntities OptionAll false EmptyString
              desc 3 10 in
  let page := paginatedContracts sampleStatusValue sampleContracts st in
  (0 < itemsPerPage st /\ 1 <= currentPage st)
  /\ (Z.of_nat (List.length page) <= itemsPerPage st
      /\ (currentPage st <= totalPages sampleStatusValue sampleContracts st ->
          page <> [])
      /\ (totalPages sampleStatusValue sampleContracts st < currentPage st ->
          page = [])).
Proof.
  split; [split; cbn; lia|].
  apply (page_sizes sampleStatusValue sampleContracts); cbn; lia.
Defined.

(** X3.  The footer's range [a-b] starts at the first row of the page and counts
    exactly the rows the page shows; over an empty register the footer reads
    [0-0] on page 1 of 1. *)
Theorem footer_range_counts_rows :
  forall statusValue contracts st,
    0 < itemsPerPage st -> 1 <= currentPage st ->
    let first := rangeStart statusValue contracts st in
    let last := rangeEnd statusValue contracts st in
    (currentPage st <= totalPages statusValue contracts st ->
     first = (currentPage st - 1) * itemsPerPage st + 1
     /\ last - first + 1
        = Z.of_nat (List.length (paginatedContracts statusValue contracts st)))
    /\ (filteredContracts statusValue contracts st = [] ->
        first = 0 /\ last = 0
        /\ displayedTotalPages statusValue contracts st = 1).
Proof.
  intros statusValue contracts st Hd Hp first last. subst first last.
  unfold rangeStart, rangeEnd, displayedTotalPages.
  rewrite paginatedContracts_slice by assumption.
  unfold totalPages.
  set (shown := filteredContracts statusValue contracts st).
  destruct (ceilDiv_bounds (Z.of_nat (List.length shown)) (itemsPerPage st))
    as (Hpos & Hcover & Hlast); [lia | exact Hd |].
  set (pages := ceilDiv (Z.of_nat (List.length shown)) (itemsPerPage st)) in *.
  assert (Hstart : 0 <= (currentPage st - 1) * itemsPerPage st)
    by (apply Z.mul_nonneg_nonneg; lia).
  split.
  - intros Hin. clearbody pages shown.
    assert ((currentPage st - 1) * itemsPerPage st
            <= (pages - 1) * itemsPerPage st)
      by (apply Z.mul_le_mono_nonneg_r; lia).
    rewrite <- Z2Nat.inj_mul by lia.
    rewrite length_firstn, length_skipn. lia.
  - intros Hnil. subst pages. rewrite Hnil in *. cbn [List.length Z.of_nat] in *.
    assert (Hzero : ceilDiv 0 (itemsPerPage st) = 0).
    { unfold ceilDiv. apply Z.div_small. lia. }
    rewrite Hzero. cbn. lia.
Qed.

Lemma footer_range_counts_rows_witness :
  let st := stateOf sampleStatusValue AllEntities OptionAll false EmptyString
              desc 3 10 in
  (0 < itemsPerPage st /\ 1 <= currentPage st)
  /\ (currentPage st <= totalPages sampleStatusValue sampleContracts st ->
      rangeStart sampleStatusValue sampleContracts st = 21
      /\ rangeEnd sampleStatusValue sampleContracts st
         - rangeStart sampleStatusValue sampleContracts st + 1
         = Z.of_nat
             (List.length
                (paginatedContracts sampleStatusValue sampleContracts st))).
Proof.
  split; [split; cbn; lia|].
  apply (footer_range_counts_rows sampleStatusValue sampleContracts);
    cbn; lia.
Defined.

Lemma length_filteredContracts statusValue contracts st :
  List.length (filteredContracts statusValue contracts st)
  = List.length (filter (keeps statusValue st) contracts).
Proof.
  rewrite filteredContracts_sort_filter.
  apply Permutation_length, sort_permutation.
Qed.

Lemma totalPages_same_dependencies statusValue contracts st next :
  sameDependencies st next = true ->
  totalPages statusValue contracts next = totalPages statusValue contracts st.
Proof.
  intros H. apply sameDependencies_iff in H.
  destruct H as (He & Hs & Ht & Hi & Hr).
  unfold totalPages. rewrite !length_filteredContracts, <- Hi.
  replace (filter (keeps statusValue next) contracts)
    with (filter (keeps statusValue st) contracts); [reflexivity|].
  apply filter_ext. intros c. unfold keeps.
  now rewrite He, Hs, Ht, Hr.
Qed.

(** X4.  Over a fixed collection, every state a session reaches has one of the
    three page sizes and a current page that is at least 1 and, unless it is
    page 1, not past the last page. *)
Theorem reachable_page_in_range :
  forall statusValue contracts st,
    reachable statusValue contracts st ->
    In (itemsPerPage st) [25; 50; 100]
    /\ 1 <= currentPage st
    /\ (currentPage st = 1
        \/ currentPage st <= totalPages statusValue contracts st).
Proof.
  intros statusValue contracts st Hr.
  induction Hr as [|st ev Hr (Hsize & Hone & Hlast)].
  - cbn. split; [now left|]. split; [lia | now left].
  - assert (Hsize' : In (itemsPerPage (handle statusValue contracts st ev))
                        [25; 50; 100]).
    { destruct ev as [e|k|s|text|o| |r| |]; cbn [handle]; try exact Hsize.
      - destruct k; exact Hsize.
      - destruct r; cbn; tauto.
      - destruct (currentPage st =? 1); exact Hsize.
      - destruct ((currentPage st =? totalPages statusValue contracts st)
                  || (totalPages statusValue contracts st =? 0));
          exact Hsize. }
    unfold step, resetPagination.
    destruct (sameDependencies st (handle statusValue contracts st ev)) eqn:Same.
    + split; [exact Hsize'|].
      pose proof (totalPages_same_dependencies statusValue contracts _ _ Same)
        as Hpages.
      rewrite Hpages. clear Hsize' Same Hpages.
      destruct ev as [e|k|s|text|o| |r| |]; cbn [handle];
        try (split; [exact Hone | exact Hlast]).
      * destruct k; split; (exact Hone || exact Hlast).
      * destruct (Z.eqb_spec (currentPage st) 1) as [E|E];
          [split; [exact Hone | exact Hlast]|].
        cbn [setCurrentPage currentPage]. lia.
      * assert (0 < itemsPerPage st) by (cbn in Hsize; lia).
        assert (0 <= totalPages statusValue contracts st)
          by (apply ceilDiv_bounds; lia).
        destruct (Z.eqb_spec (currentPage st)
                    (totalPages statusValue contracts st)) as [E|E];
          [split; [exact Hone | exact Hlast]|].
        destruct (Z.eqb_spec (totalPages statusValue contracts st) 0) as [Z0|Z0];
          [split; [exact Hone | exact Hlast]|].
        cbn [orb setCurrentPage currentPage]. lia.
    + cbn [setCurrentPage itemsPerPage currentPage].
      split; [exact Hsize'|]. split; [lia | now left].
Qed.

Lemma reachable_page_in_range_witness :
  let st := step sampleStatusValue sampleContracts
              (step sampleStatusValue sampleContracts initialState
                 (RowsPerPageChange Rows50))
              NextPageClick in
  reachable sampleStatusValue sampleContracts st
  /\ (In (itemsPerPage st) [25; 50; 100]
      /\ 1 <= currentPage st
      /\ (currentPage st = 1
          \/ currentPage st <= totalPages sampleStatusValue sampleContracts st)).
Proof.
  assert (Hr : reachable sampleStatusValue sampleContracts
                 (step sampleStatusValue sampleContracts
                    (step sampleStatusValue sampleContracts initialState
                       (RowsPerPageChange Rows50))
                    NextPageClick)).
  { apply reachable_step, reachable_step, reachable_initial. }
  split; [exact Hr|].
  apply (reachable_page_in_range sampleStatusValue sampleContracts _ Hr).
Defined.

Lemma step_same_dependencies statusValue contracts st ev :
  sameDependencies st (handle statusValue contracts st ev) = true ->
  step statusValue contracts st ev = handle statusValue contracts st ev.
Proof. intros H. unfold step, resetPagination. now rewrite H. Qed.

Lemma sameDependencies_setCurrentPage st p :
  sameDependencies st (setCurrentPage p st) = true.
Proof. apply (sameDependencies_refl st). Qed.

(** X5.  Before the last page, the next-page button moves one page forward and
    the previous-page button then brings the dashboard back to the state it
    was in. *)
Theorem next_then_previous_page :
  forall statusValue contracts st,
    1 <= currentPage st ->
    currentPage st < totalPages statusValue contracts st ->
    let st' := step statusValue contracts st NextPageClick in
    currentPage st' = currentPage st + 1
    /\ step statusValue contracts st' PreviousPageClick = st.
Proof.
  intros statusValue contracts st Hone Hlt st'.
  assert (Hnext : st' = setCurrentPage (currentPage st + 1) st).
  { subst st'. rewrite step_same_dependencies; cbn [handle].
    - destruct (Z.eqb_spec (currentPage st)
                  (totalPages statusValue contracts st)); [lia|].
      destruct (Z.eqb_spec (totalPages statusValue contracts st) 0); [lia|].
      cbn [orb]. f_equal. lia.
    - destruct ((currentPage st =? totalPages statusValue contracts st)
                || (totalPages statusValue contracts st =? 0));
        [apply sameDependencies_refl | apply sameDependencies_setCurrentPage]. }
  rewrite Hnext. split; [reflexivity|].
  rewrite step_same_dependencies; cbn [handle setCurrentPage currentPage].
  - destruct (Z.eqb_spec (currentPage st + 1) 1); [lia|].
    unfold setCurrentPage. cbn. destruct st. cbn in *. f_equal. lia.
  - destruct (currentPage st + 1 =? 1);
      [apply sameDependencies_refl | apply sameDependencies_setCurrentPage].
Qed.

Lemma next_then_previous_page_witness :
  let st := stateOf sampleStatusValue AllEntities OptionAll false EmptyString
              desc 1 10 in
  let st' := step sampleStatusValue sampleContracts st NextPageClick in
  (1 <= currentPage st
   /\ currentPage st < totalPages sampleStatusValue sampleContracts st)
  /\ (currentPage st' = currentPage st + 1
      /\ step sampleStatusValue sampleContracts st' PreviousPageClick = st).
Proof.
  split; [split; vm_compute; (reflexivity || discriminate)|].
  apply (next_then_previous_page sampleStatusValue sampleContracts);
    vm_compute; (reflexivity || discriminate).
Defined.

(** ** Sort order *)

(** X6.  Two clicks on the date header bring the dashboard back to the state it
    was in, page included. *)
Theorem sort_toggle_twice :
  forall statusValue contracts st,
    step statusValue contracts
      (step statusValue contracts st SortHeaderClick) SortHeaderClick
    = st.
Proof.
  intros statusValue contracts st. rewrite !step_SortHeaderClick.
  destruct st as [e s h t o p n]. unfold setSortOrder. cbn.
  now destruct o.
Qed.

Lemma sorted_snoc {A : Type} (R : A -> A -> Prop) (m : list A) (x : A) :
  StronglySorted R m -> Forall (fun y => R y x) m ->
  StronglySorted R (m ++ [x]).
Proof.
  induction 1 as [|y m Hs IH Hy]; intros Hx; cbn.
  - repeat constructor.
  - apply Forall_cons_iff in Hx. destruct Hx as [Hyx Hx].
    constructor; [now apply IH|].
    apply Forall_app. split; [exact Hy | now repeat constructor].
Qed.

Lemma sorted_rev {A : Type} (R : A -> A -> Prop) (l : list A) :
  StronglySorted R l -> StronglySorted (fun a b => R b a) (rev l).
Proof.
  induction 1 as [|x l Hs IH Hall]; cbn; [constructor|].
  apply sorted_snoc; [exact IH|].
  rewrite Forall_forall in *. intros y Hy. apply Hall. now apply in_rev.
Qed.

Lemma sorted_permutation_unique {A : Type} (R : A -> A -> Prop)
  (l1 l2 : list A) :
  (forall a b, In a l1 -> In b l1 -> R a b -> R b a -> a = b) ->
  StronglySorted R l1 -> StronglySorted R l2 -> Permutation l1 l2 ->
  l1 = l2.
Proof.
  intros Hanti Hs1. revert l2.
  induction Hs1 as [|a l1 Hs1 IH Ha]; intros l2 Hs2 Hperm.
  - apply Permutation_nil in Hperm. now subst.
  - destruct Hs2 as [|b l2 Hs2 Hb].
    + apply Permutation_sym, Permutation_nil in Hperm. discriminate.
    + assert (a = b) as <-.
      { assert (Hab : In a (b :: l2))
          by (eapply Permutation_in; [exact Hperm | now left]).
        assert (Hba : In b (a :: l1))
          by (eapply Permutation_in;
              [apply Permutation_sym; exact Hperm | now left]).
        rewrite Forall_forall in Ha, Hb.
        destruct Hab as [Hab|Hab]; [now subst|].
        destruct Hba as [Hba|Hba]; [now subst|].
        apply Hanti; [now left | now right | now apply Ha | now apply Hb]. }
      f_equal. apply IH.
      * intros x y Hx Hy. apply Hanti; now right.
      * exact Hs2.
      * eapply Permutation_cons_inv. exact Hperm.
Qed.

Lemma NoDup_map_injective {A B : Type} (f : A -> B) (l : list A) (a b : A) :
  NoDup (map f l) -> In a l -> In b l -> f a = f b -> a = b.
Proof.
  induction l as [|x l IH]; cbn; intros Hnd Ha Hb Hf; [contradiction|].
  apply NoDup_cons_iff in Hnd. destruct Hnd as [Hx Hnd].
  destruct Ha as [<-|Ha], Hb as [<-|Hb].
  - reflexivity.
  - exfalso. apply Hx. rewrite Hf. now apply in_map.
  - exfalso. apply Hx. rewrite <- Hf. now apply in_map.
  - now apply IH.
Qed.

(** X7.  When the contracts that pass the filters all carry different
    timestamps, a click on the date header shows the same rows in exactly
    the reverse order. *)
Theorem sort_toggle_reverses_register :
  forall statusValue contracts st,
    NoDup (map dateOrZero (filter (keeps statusValue st) contracts)) ->
    filteredContracts statusValue contracts
      (step statusValue contracts st SortHeaderClick)
    = rev (filteredContracts statusValue contracts st).
Proof.
  intros statusValue contracts st Hnd.
  rewrite filteredContracts_toggled, filteredContracts_sort_filter.
  set (kept := filter (keeps statusValue st) contracts) in *.
  apply (sorted_permutation_unique
           (inDateOrder (toggleSortOrder (sortOrder st)))).
  - intros a b Ha Hb Hab Hba.
    apply (NoDup_map_injective dateOrZero kept); try assumption.
    + eapply Permutation_in; [apply sort_permutation | exact Ha].
    + eapply Permutation_in; [apply sort_permutation | exact Hb].
    + destruct (sortOrder st); cbn in Hab, Hba; lia.
  - apply sort_by_date_sorted.
  - pose proof (sorted_rev _ _ (sort_by_date_sorted (sortOrder st) kept)) as H.
    destruct (sortOrder st); exact H.
  - rewrite <- Permutation_rev, !sort_permutation. reflexivity.
Qed.

Lemma sort_toggle_reverses_register_witness :
  let three :=
    [ createMockContract 30 "CNT-A" BRAZIL SUBMITTED 2000000 "Alpha";
      createMockContract 10 "CNT-B" CONGO APPROVED 500000 "Beta";
      createMockContract 20 "CNT-C" LONDON DRAFT 8000000 "Gamma" ] in
  NoDup (map dateOrZero (filter (keeps sampleStatusValue initialState) three))
  /\ filteredContracts sampleStatusValue three
       (step sampleStatusValue three initialState SortHeaderClick)
     = rev (filteredContracts sampleStatusValue three initialState).
Proof.
  assert (Hnd : NoDup (map dateOrZero
                         (filter (keeps sampleStatusValue initialState)
                            [ createMockContract 30 "CNT-A" BRAZIL SUBMITTED
                                2000000 "Alpha";
                              createMockContract 10 "CNT-B" CONGO APPROVED
                                500000 "Beta";
                              createMockContract 20 "CNT-C" LONDON DRAFT
                                8000000 "Gamma" ]))).
  { cbn. repeat constructor; cbn; intuition lia. }
  split; [exact Hnd|].
  apply (sort_toggle_reverses_register sampleStatusValue _ initialState Hnd).
Defined.

(** ** Filters that narrow one another *)

Section FilterSort.
Context {A : Type}.
Variable compareFn : A -> A -> Z.
Hypothesis compare_total : forall a b, 0 < compareFn a b -> compareFn b a <= 0.
Hypothesis compare_trans :
  forall a b c, compareFn a b <= 0 -> compareFn b c <= 0 -> compareFn a c <= 0.

Lemma insert_below_all (x : A) (m : list A) :
  Forall (fun z => compareFn x z <= 0) m -> JS.insert compareFn x m = x :: m.
Proof.
  destruct 1 as [|z m Hz _]; cbn; [reflexivity|].
  apply Z.leb_le in Hz. now rewrite Hz.
Qed.

Lemma filter_insert (p : A -> bool) (x : A) (l : list A) :
  StronglySorted (fun a b => compareFn a b <= 0) l ->
  filter p (JS.insert compareFn x l)
  = if p x then JS.insert compareFn x (filter p l) else filter p l.
Proof.
  induction 1 as [|y l Hs IH Hy]; cbn.
  - now destruct (p x).
  - destruct (compareFn x y <=? 0) eqn:E.
    + apply Z.leb_le in E. cbn. destruct (p x); [|reflexivity].
      symmetry. apply insert_below_all.
      assert (Hall : Forall (fun z => compareFn x z <= 0) (y :: l)).
      { constructor; [exact E|]. eapply Forall_impl; [|exact Hy].
        intros z Hz. eapply compare_trans; eassumption. }
      rewrite Forall_forall in *. intros z Hz.
      apply Hall. eapply (proj1 (filter_In p z (y :: l))). exact Hz.
    + cbn. rewrite IH. destruct (p y), (p x); cbn; try reflexivity.
      now rewrite E.
Qed.

Lemma filter_sort (p : A -> bool) (l : list A) :
  filter p (JS.sort compareFn l) = JS.sort compareFn (filter p l).
Proof.
  induction l as [|x l IH]; cbn; [reflexivity|].
  rewrite filter_insert by (apply sort_sorted; assumption).
  rewrite IH. now destruct (p x).
Qed.
End FilterSort.

Lemma filter_sort_by_date (o : SortOrder) (p : ContractData -> bool)
  (l : list ContractData) :
  filter p (JS.sort (compareByDate o) l) = JS.sort (compareByDate o) (filter p l).
Proof.
  apply filter_sort; [apply compareByDate_total | apply compareByDate_trans].
Qed.

Lemma includes_empty (s : string) : JS.includes s EmptyString = true.
Proof. destruct s; reflexivity. Qed.

Lemma string_app_assoc (a b c : string) : (a ++ b) ++ c = a ++ (b ++ c).
Proof. induction a as [|x a IH]; cbn; [reflexivity | now rewrite IH]. Qed.

Lemma includes_narrower (field pre term post : string) :
  JS.includes field (pre ++ term ++ post) = true ->
  JS.includes field term = true.
Proof.
  rewrite !includes_iff. intros (a & b & ->).
  exists (a ++ pre), (post ++ b).
  now rewrite !string_app_assoc.
Qed.

Lemma searchMatches_narrower (pre term post : string) (c : ContractData) :
  searchMatches (JS.toLowerCase (pre ++ term ++ post)) c = true ->
  searchMatches (JS.toLowerCase term) c = true.
Proof.
  unfold searchMatches. rewrite !toLowerCase_app, !orb_true_iff.
  intros [[H|H]|H]; apply includes_narrower in H; auto.
Qed.

(** X8.  Narrowing a filter only takes rows out of the register and keeps
    the others in place: with the high-risk filter on, the register is the
    high-risk rows of the register without it; and, on ASCII text, with a
    search term that extends another it is the matching rows of the register
    for the shorter term. *)
Theorem narrower_filter_removes_rows :
  forall statusValue contracts st,
    filteredContracts statusValue contracts (setIsHighRiskFilter true st)
    = filter isHighRisk
        (filteredContracts statusValue contracts
           (setIsHighRiskFilter false st))
    /\ (forall pre term post,
           JS.isAscii (pre ++ term ++ post) = true ->
           forallb asciiFields contracts = true ->
           filteredContracts statusValue contracts
             (setSearchTerm (pre ++ term ++ post) st)
           = filter (searchMatches (JS.toLowerCase (pre ++ term ++ post)))
               (filteredContracts statusValue contracts
                  (setSearchTerm term st))).
Proof.
  intros statusValue contracts st. split.
  - rewrite !filteredContracts_sort_filter.
    cbn [setIsHighRiskFilter sortOrder].
    rewrite filter_sort_by_date, filter_filter_andb. f_equal.
    apply filter_ext. intros c. unfold keeps. cbn. btauto.
  - intros pre term post _ _.
    rewrite !filteredContracts_sort_filter.
    cbn [setSearchTerm sortOrder].
    rewrite filter_sort_by_date, filter_filter_andb. f_equal.
    apply filter_ext. intros c. unfold keeps.
    cbn [setSearchTerm selectedEntity selectedStatus isHighRiskFilter
           searchTerm].
    pose proof (searchMatches_narrower pre term post c) as Hmono.
    destruct (searchMatches (JS.toLowerCase (pre ++ term ++ post)) c) eqn:Q.
    + rewrite (Hmono eq_refl).
      destruct (JS.truthy (pre ++ term ++ post)), (JS.truthy term); btauto.
    + destruct (JS.truthy (pre ++ term ++ post)) eqn:T; [btauto|].
      exfalso. destruct pre; [|discriminate]. destruct term; [|discriminate].
      destruct post; [|discriminate].
      unfold searchMatches in Q. cbn in Q. now rewrite includes_empty in Q.
Qed.

Lemma narrower_filter_removes_rows_witness :
  (JS.isAscii ("Sub" ++ "sea" ++ " Tree") = true
   /\ forallb asciiFields sampleContracts = true)
  /\ filteredContracts sampleStatusValue sampleContracts
       (setSearchTerm ("Sub" ++ "sea" ++ " Tree") initialState)
     = filter (searchMatches (JS.toLowerCase ("Sub" ++ "sea" ++ " Tree")))
         (filteredContracts sampleStatusValue sampleContracts
            (setSearchTerm "sea" initialState)).
Proof.
  split; [split; vm_compute; reflexivity|].
  apply (proj2 (narrower_filter_removes_rows sampleStatusValue
                  sampleContracts initialState));
    vm_compute; reflexivity.
Defined.

(** ** KPI cards and the register *)

Lemma keeps_step statusValue contracts st ev c :
  keeps statusValue (step statusValue contracts st ev) c
  = keeps statusValue (handle statusValue contracts st ev) c.
Proof.
  unfold step, resetPagination.
  now destruct (sameDependencies st (handle statusValue contracts st ev)).
Qed.

Lemma length_filter_kpiBase (p : ContractData -> bool) contracts st :
  List.length (filter p (kpiBaseContracts contracts st))
  = List.length
      (filter (fun c =>
                 (if negb (selectedEntity st =? "ALL")%string
                  then entityMatches (selectedEntity st) c else true) && p c)
              contracts).
Proof.
  unfold kpiBaseContracts.
  destruct (selectedEntity st =? "ALL")%string; cbn [negb].
  - reflexivity.
  - now rewrite filter_filter_andb.
Qed.

(** X9.  With no search term typed, a click on the under-review card leaves the
    register with as many rows as the card's number, and a click on the
    high-risk card with as many rows as that card's number. *)
Theorem kpi_card_click_shows_counted_rows :
  forall statusValue contracts st,
    searchTerm st = EmptyString ->
    List.length
      (filteredContracts statusValue contracts
         (step statusValue contracts st (KPICardClick PENDING)))
    = pending (metrics contracts st)
    /\ List.length
         (filteredContracts statusValue contracts
            (step statusValue contracts st (KPICardClick RISK)))
       = highRisk (metrics contracts st).
Proof.
  intros statusValue contracts st Hterm.
  unfold metrics, computeMetrics. cbn [pending highRisk].
  rewrite !length_filteredContracts, !length_filter_kpiBase.
  split; f_equal; apply filter_ext; intros c; rewrite keeps_step;
    unfold keeps; cbn; rewrite Hterm; cbn; btauto.
Qed.

Lemma kpi_card_click_shows_counted_rows_witness :
  searchTerm initialState = EmptyString
  /\ (List.length
        (filteredContracts sampleStatusValue sampleContracts
           (step sampleStatusValue sampleContracts initialState
              (KPICardClick PENDING)))
      = pending (metrics sampleContracts initialState)
      /\ List.length
           (filteredContracts sampleStatusValue sampleContracts
              (step sampleStatusValue sampleContracts initialState
                 (KPICardClick RISK)))
         = highRisk (metrics sampleContracts initialState)).
Proof.
  split; [reflexivity|].
  apply (kpi_card_click_shows_counted_rows sampleStatusValue sampleContracts).
  reflexivity.
Defined.

Lemma filter_disjoint_union {A : Type} (p q : A -> bool) (l : list A) :
  (forall x, p x = true -> q x = true -> False) ->
  Permutation (filter (fun x => p x || q x) l) (filter p l ++ filter q l).
Proof.
  intros Hpq. induction l as [|x l IH]; cbn; [reflexivity|].
  destruct (p x) eqn:Px, (q x) eqn:Qx; cbn.
  - exfalso. eauto.
  - now apply perm_skip.
  - now apply Permutation_cons_app.
  - exact IH.
Qed.

Section StatusFilters.

Variable statusValue : ContractStatus -> string.
Hypothesis statusValue_injective :
  forall s s', statusValue s = statusValue s' -> s = s'.
Hypothesis statusValue_not_ALL : forall s, statusValue s <> "ALL".
Hypothesis statusValue_not_REVIEW : forall s, statusValue s <> "REVIEW".

Lemma keeps_one_status st s c :
  keeps statusValue (setSelectedStatus (statusValue s) st) c
  = (if negb (selectedEntity st =? "ALL")%string
     then entityMatches (selectedEntity st) c else true)
    && ContractStatus_eqb (status c) s
    && (if isHighRiskFilter st then isHighRisk c else true)
    && (if JS.truthy (searchTerm st)
        then searchMatches (JS.toLowerCase (searchTerm st)) c else true).
Proof.
  unfold keeps.
  cbn [setSelectedStatus selectedEntity selectedStatus isHighRiskFilter
         searchTerm].
  destruct (String.eqb_spec (statusValue s) "REVIEW") as [E|_];
    [now apply statusValue_not_REVIEW in E|].
  destruct (String.eqb_spec (statusValue s) "ALL") as [E|_];
    [now apply statusValue_not_ALL in E|].
  cbn [negb]. do 3 f_equal.
  destruct (String.eqb_spec (statusValue (status c)) (statusValue s)) as [E|E].
  - apply statusValue_injective in E. symmetry.
    now apply ContractStatus_eqb_eq.
  - destruct (ContractStatus_eqb (status c) s) eqn:F; [|reflexivity].
    apply ContractStatus_eqb_eq in F. now subst.
Qed.

(** X10.  The composite review option shows the rows of the Submitted option and
    the rows of the PendingCEO option, each once. *)
Theorem review_option_is_union :
  forall contracts st,
    Permutation
      (filteredContracts statusValue contracts (setSelectedStatus "REVIEW" st))
      (filteredContracts statusValue contracts
         (setSelectedStatus (statusValue SUBMITTED) st)
       ++ filteredContracts statusValue contracts
            (setSelectedStatus (statusValue PENDING_CEO) st)).
Proof.
  intros contracts st.
  rewrite !filteredContracts_permutation.
  rewrite <- filter_disjoint_union.
  - apply Permutation_refl'. apply filter_ext. intros c.
    rewrite !keeps_one_status. unfold keeps, underReview. cbn. btauto.
  - intros c. rewrite !keeps_one_status, !andb_true_iff.
    rewrite !ContractStatus_eqb_eq.
    intros (((_ & H1) & _) & _) (((_ & H2) & _) & _). congruence.
Qed.

(** X11.  With no search term typed, a click on a slice of the status chart
    leaves the register with as many rows as the slice counts. *)
Theorem pie_slice_click_shows_counted_rows :
  forall contracts st d,
    searchTerm st = EmptyString ->
    In d (statusData (metrics contracts st)) ->
    List.length
      (filteredContracts statusValue contracts
         (step statusValue contracts st (PieSliceClick (bucketStatus d))))
    = bucketCount d.
Proof.
  intros contracts st d Hterm Hd.
  assert (Hcount : bucketCount d
                   = List.length
                       (filter (fun c => ContractStatus_eqb (status c)
                                           (bucketStatus d))
                          (kpiBaseContracts contracts st))).
  { unfold metrics, computeMetrics in Hd. cbn [statusData] in Hd.
    apply filter_In in Hd. destruct Hd as [Hd _].
    destruct Hd as [<-|[<-|[<-|[<-|[]]]]]; reflexivity. }
  rewrite Hcount, length_filteredContracts, length_filter_kpiBase.
  f_equal. apply filter_ext. intros c. rewrite keeps_step. cbn [handle].
  change (setIsHighRiskFilter false
            (setSelectedStatus (statusValue (bucketStatus d)) st))
    with (setSelectedStatus (statusValue (bucketStatus d))
            (setIsHighRiskFilter false st)).
  rewrite keeps_one_status. cbn. rewrite Hterm. cbn. btauto.
Qed.

End StatusFilters.

Lemma review_option_is_union_witness :
  ((forall s s', sampleStatusValue s = sampleStatusValue s' -> s = s')
   /\ (forall s, sampleStatusValue s <> "ALL")
   /\ (forall s, sampleStatusValue s <> "REVIEW"))
  /\ Permutation
       (filteredContracts sampleStatusValue sampleContracts
          (setSelectedStatus "REVIEW" initialState))
       (filteredContracts sampleStatusValue sampleContracts
          (setSelectedStatus (sampleStatusValue SUBMITTED) initialState)
        ++ filteredContracts sampleStatusValue sampleContracts
             (setSelectedStatus (sampleStatusValue PENDING_CEO) initialState)).
Proof.
  split.
  - split; [exact sampleStatusValue_injective|].
    split; [exact sampleStatusValue_not_ALL
           | exact sampleStatusValue_not_REVIEW].
  - apply (review_option_is_union sampleStatusValue
             sampleStatusValue_injective sampleStatusValue_not_ALL
             sampleStatusValue_not_REVIEW).
Defined.

Lemma pie_slice_click_shows_counted_rows_witness :
  let d := mkStatusBucket PENDING_CEO 6 in
  ((forall s s', sampleStatusValue s = sampleStatusValue s' -> s = s')
   /\ (forall s, sampleStatusValue s <> "ALL")
   /\ (forall s, sampleStatusValue s <> "REVIEW")
   /\ searchTerm initialState = EmptyString
   /\ In d (statusData (metrics sampleContracts initialState)))
  /\ List.length
       (filteredContracts sampleStatusValue sampleContracts
          (step sampleStatusValue sampleContracts initialState
             (PieSliceClick (bucketStatus d))))
     = bucketCount d.
Proof.
  assert (Hin : In (mkStatusBucket PENDING_CEO 6)
                  (statusData (metrics sampleContracts initialState))).
  { vm_compute. right. left. reflexivity. }
  split.
  - split; [exact sampleStatusValue_injective|].
    split; [exact sampleStatusValue_not_ALL|].
    split; [exact sampleStatusValue_not_REVIEW|].
    split; [reflexivity | exact Hin].
  - apply (pie_slice_click_shows_counted_rows sampleStatusValue
             sampleStatusValue_injective sampleStatusValue_not_ALL
             sampleStatusValue_not_REVIEW sampleContracts initialState
             (mkStatusBucket PENDING_CEO 6) eq_refl Hin).
Defined.

(** ** The charts *)

Lemma ofEntity_ofEntity (e' e : Entity) (l : list ContractData) :
  ofEntity e' (ofEntity e l) = if Entity_eqb e' e then ofEntity e l else [].
Proof.
  unfold ofEntity. rewrite filter_filter_andb.
  destruct (Entity_eqb e' e) eqn:E.
  - apply Entity_eqb_eq in E. subst e'. apply filter_ext. intros c.
    now destruct (Entity_eqb (entity c) e).
  - induction l as [|c l IH]; cbn; [reflexivity|]. rewrite IH.
    destruct (entity c), e, e'; try reflexivity; discriminate E.
Qed.

Lemma kpiBaseContracts_flag contracts st e :
  kpiBaseContracts contracts (setSelectedEntity (flagLabel e) st)
  = ofEntity e contracts.
Proof.
  unfold kpiBaseContracts, ofEntity. cbn [setSelectedEntity selectedEntity].
  destruct e; cbn; apply filter_ext; intros c; reflexivity.
Qed.

(** X12.  With one entity selected, the spend chart has a single bar that can be
    other than zero, the selected entity's, and that bar is the total value
    of the KPI card. *)
Theorem spend_chart_single_entity :
  forall contracts st e,
    let m := metrics contracts (setSelectedEntity (flagLabel e) st) in
    map spendValue (spendData m)
    = map (fun e' => if Entity_eqb e' e then totalValue m else 0)
        [LONDON; BRAZIL; CONGO; EQUATORIAL_GUINEA].
Proof.
  intros contracts st e m. subst m. unfold metrics.
  rewrite kpiBaseContracts_flag. unfold computeMetrics.
  cbn [spendData totalValue map spendValue].
  fold (ofEntity LONDON (ofEntity e contracts)).
  fold (ofEntity BRAZIL (ofEntity e contracts)).
  fold (ofEntity CONGO (ofEntity e contracts)).
  fold (ofEntity EQUATORIAL_GUINEA (ofEntity e contracts)).
  rewrite !ofEntity_ofEntity.
  destruct e; reflexivity.
Qed.

Lemma length_by_status (l : list ContractData) :
  List.length l
  = (countInStatus DRAFT l + countInStatus SUBMITTED l
     + countInStatus PENDING_CEO l + countInStatus CHANGES_REQUESTED l
     + countInStatus APPROVED l + countInStatus REJECTED l)%nat.
Proof.
  induction l as [|c l IH]; cbn; [reflexivity|].
  destruct (status c); cbn; lia.
Qed.

(** X13.  The bars of the status chart add up to the number of base contracts that
    are neither Draft nor ChangesRequested: those two states are the only
    contracts the chart leaves out. *)
Theorem status_chart_total :
  forall contracts st,
    let base := kpiBaseContracts contracts st in
    (sumOfBuckets (statusData (metrics contracts st))
     + countInStatus DRAFT base + countInStatus CHANGES_REQUESTED base)%nat
    = List.length base.
Proof.
  intros contracts st base. subst base. unfold metrics.
  set (base := kpiBaseContracts contracts st).
  rewrite (length_by_status base).
  unfold computeMetrics. cbn [statusData].
  rewrite !length_filter_status.
  destruct (countInStatus SUBMITTED base), (countInStatus PENDING_CEO base),
    (countInStatus APPROVED base), (countInStatus REJECTED base);
    cbn [filter bucketCount Z.of_nat Z.ltb Z.compare sumOfBuckets]; lia.
Qed.

(** ** The trigger catalog *)

(** X14.  Whatever the type and the amount, each trigger the creation code detects
    is an entry of [INITIAL_TRIGGERS] marked as triggered, of the financial
    category, and the only entry of the catalog under its id. *)
Theorem detected_triggers_from_catalog :
  forall ty a,
    Forall
      (fun t =>
         exists t0,
           In t0 INITIAL_TRIGGERS
           /\ RiskTrigger.triggered t0 = false
           /\ t = asTriggered t0
           /\ RiskTrigger.category t = FINANCIAL
           /\ filter (fun t' => (RiskTrigger.id t' =? RiskTrigger.id t)%string)
                INITIAL_TRIGGERS = [t0])
      (detectTriggers ty a).
Proof.
  intros ty a. rewrite detectTriggers_cases.
  destruct ty; destruct (_ <? a); constructor; try constructor.
  - exists (RiskTrigger.mk "t2" FINANCIAL "CAPEX > USD 5M" false).
    cbn. repeat split; auto.
  - exists (RiskTrigger.mk "t1" FINANCIAL "OPEX > USD 1M" false).
    cbn. repeat split; auto.
Qed.

(** ** More on the AI text operations *)

Lemma or_else_nonempty (a b : string) :
  b <> EmptyString -> JS.or_else a b <> EmptyString.
Proof. unfold JS.or_else. destruct a; cbn; [auto | discriminate]. Qed.

Lemma textOr_nonempty (value : option string) (fallback : string) :
  fallback <> EmptyString -> textOr value fallback <> EmptyString.
Proof.
  intros H. destruct value; cbn; [now apply or_else_nonempty | exact H].
Qed.

Lemma textOr_cases (value : option string) (fallback : string) :
  textOr value fallback = fallback
  \/ (value = Some (textOr value fallback)
      /\ textOr value fallback <> EmptyString).
Proof.
  destruct value as [[|c t]|]; cbn; auto.
  right. split; [reflexivity | discriminate].
Qed.

(** X15.  A text of fewer than five characters, the empty text included, comes
    back from [refineContractText] as it is, whatever the API key and the
    service, and nothing is logged. *)
Theorem refine_short_text_untouched :
  forall env text context log,
    (String.length text < 5)%nat ->
    refineContractText env text context log = (Normal text, log).
Proof.
  intros env text context log Hshort. unfold refineContractText.
  assert (Hlt : (Z.of_nat (String.length text) <? 5) = true)
    by (apply Z.ltb_lt; lia).
  rewrite Hlt, !orb_true_r. reflexivity.
Qed.

Lemma refine_short_text_untouched_witness :
  let env := mkEnv (Some "key") (fun _ _ _ => Normal (Some "rewritten")) in
  (String.length "rig" < 5)%nat
  /\ refineContractText env "rig" scope [] = (Normal "rig", []).
Proof.
  split; [cbn; lia|].
  apply refine_short_text_untouched. cbn. lia.
Defined.

(** X16.  [analyzeContractRisks] never answers with an empty text.
    [refineContractText] answers either with the text it was given or with
    the non-empty text the service returned, so a text that is not empty is
    never replaced by an empty one. *)
Theorem ai_results_never_blank :
  (forall env contract log,
      exists text log',
        analyzeContractRisks env contract log = (Normal text, log')
        /\ text <> EmptyString)
  /\ (forall env text context log,
         exists out log',
           refineContractText env text context log = (Normal out, log')
           /\ (out = text
               \/ (out <> EmptyString
                   /\ generateContent env (getApiKey env) "gemini-2.5-flash"
                        (refinePrompt text context) = Normal (Some out)))).
Proof.
  split.
  - intros env contract log. unfold analyzeContractRisks.
    destruct (JS.truthy (getApiKey env)); cbn [negb].
    + unfold tryCatch, bind, lift, consoleError, ret.
      destruct (generateContent env (getApiKey env) "gemini-2.5-flash"
                  (analysisPrompt contract)) as [t|e].
      * eexists _, _. split; [reflexivity|].
        apply textOr_nonempty. discriminate.
      * eexists _, _. split; [reflexivity | discriminate].
    + eexists _, _. split; [reflexivity | discriminate].
  - intros env text context log. unfold refineContractText.
    destruct (negb (JS.truthy (getApiKey env)) || negb (JS.truthy text)
              || (Z.of_nat (String.length text) <? 5)).
    + eexists _, _. split; [reflexivity | now left].
    + unfold tryCatch, bind, lift, consoleError, ret.
      destruct (generateContent env (getApiKey env) "gemini-2.5-flash"
                  (refinePrompt text context)) as [t|e] eqn:G.
      * eexists _, _. split; [reflexivity|].
        destruct (textOr_cases t text) as [H|[H Hne]]; [now left|].
        right. split; [exact Hne | now rewrite <- H].
      * eexists _, _. split; [reflexivity | now left].
Qed.

Ltac log_case :=
  split; [reflexivity|]; split; [cbn; lia|];
  intros ?; first [reflexivity | congruence].

(** X17.  Each operation writes at most one line to the console, after what was
    there, and only on the way to its fallback: a line is written only when
    [analyzeContractRisks] answers with the error text, and only when
    [refineContractText] answers with the text it was given. *)
Theorem ai_operations_log_only_failures :
  (forall env contract log,
      exists extra,
        snd (analyzeContractRisks env contract log) = (log ++ extra)%list
        /\ (List.length extra <= 1)%nat
        /\ (extra <> [] ->
            fst (analyzeContractRisks env contract log)
            = Normal "Error generating AI analysis. Please review manually."))
  /\ (forall env text context log,
         exists extra,
           snd (refineContractText env text context log) = (log ++ extra)%list
           /\ (List.length extra <= 1)%nat
           /\ (extra <> [] ->
               fst (refineContractText env text context log) = Normal text)).
Proof.
  split.
  - intros env contract log. unfold analyzeContractRisks.
    destruct (JS.truthy (getApiKey env)); cbn [negb].
    + unfold tryCatch, bind, lift, consoleError, ret.
      destruct (generateContent env (getApiKey env) "gemini-2.5-flash"
                  (analysisPrompt contract)) as [t|e].
      * exists []. cbn. rewrite app_nil_r. log_case.
      * eexists [_]. cbn. log_case.
    + exists []. cbn. rewrite app_nil_r. log_case.
  - intros env text context log. unfold refineContractText.
    destruct (negb (JS.truthy (getApiKey env)) || negb (JS.truthy text)
              || (Z.of_nat (String.length text) <? 5)).
    + exists []. cbn. rewrite app_nil_r. log_case.
    + unfold tryCatch, bind, lift, consoleError, ret.
      destruct (generateContent env (getApiKey env) "gemini-2.5-flash"
                  (refinePrompt text context)) as [t|e].
      * exists []. cbn. rewrite app_nil_r. log_case.
      * eexists [_]. cbn. log_case.
Qed.

(** ** Contracts without a submission date *)

(** X18.  In the default, descending order a contract that has no submission date
    is listed after every contract whose timestamp is positive: a missing
    date sorts as timestamp 0. *)
Theorem undated_contracts_listed_last :
  forall statusValue contracts st a b,
    sortOrder st = desc ->
    submissionDate a = None ->
    0 < dateOrZero b ->
    In a (filteredContracts statusValue contracts st) ->
    In b (filteredContracts statusValue contracts st) ->
    precedes (filteredContracts statusValue contracts st) b a
    /\ ~ precedes (filteredContracts statusValue contracts st) a b.
Proof.
  intros statusValue contracts st a b Hdesc Hnone Hpos Ha Hb.
  assert (Hzero : dateOrZero a = 0) by (unfold dateOrZero; now rewrite Hnone).
  assert (Hnot : ~ precedes (filteredContracts statusValue contracts st) a b).
  { intros Hab.
    pose proof (sort_by_date_sorted (sortOrder st)
                  (filter (keeps statusValue st) contracts)) as Hsorted.
    rewrite <- filteredContracts_sort_filter in Hsorted.
    apply (sorted_precedes _ _ _ _ Hsorted) in Hab.
    rewrite Hdesc in Hab. cbn in Hab. lia. }
  split; [|exact Hnot].
  destruct (in_in_precedes _ b a Hb Ha) as [H|H]; try assumption.
  - intros ->. lia.
  - contradiction.
Qed.

Lemma undated_contracts_listed_last_witness :
  let dated := createMockContract 20 "CNT-B" CONGO APPROVED 500000 "Beta" in
  let undated :=
    withoutSubmissionDate
      (createMockContract 10 "CNT-A" BRAZIL DRAFT 2000000 "Alpha") in
  let shown :=
    filteredContracts sampleStatusValue [undated; dated] initialState in
  (sortOrder initialState = desc
   /\ submissionDate undated = None
   /\ 0 < dateOrZero dated
   /\ In undated shown /\ In dated shown)
  /\ (precedes shown dated undated /\ ~ precedes shown undated dated).
Proof.
  split.
  - repeat split; vm_compute; auto.
  - apply (undated_contracts_listed_last sampleStatusValue);
      vm_compute; auto.
Defined.

Lemma sumOfAmounts_permutation (l m : list ContractData) :
  Permutation l m -> sumOfAmounts l = sumOfAmounts m.
Proof. induction 1; cbn; lia. Qed.

Lemma sumOfMagnitudes_permutation (l m : list ContractData) :
  Permutation l m -> sumOfMagnitudes l = sumOfMagnitudes m.
Proof. induction 1; cbn; lia. Qed.

(** X19.  With no search term typed, a click on the total-value card (or on
    the review-time card) leaves the register with the contracts the KPI
    cards are computed from; when the amounts of those contracts are whole
    numbers whose magnitudes add up to at most 2^53, so that no addition of
    doubles rounds, the amounts of the rows add up to the card's total
    value. *)
Theorem kpi_value_click_shows_summed_rows :
  forall statusValue contracts st k,
    searchTerm st = EmptyString ->
    k = VALUE \/ k = AVG ->
    let shown :=
      filteredContracts statusValue contracts
        (step statusValue contracts st (KPICardClick k)) in
    Permutation shown (kpiBaseContracts contracts st)
    /\ (sumOfMagnitudes (kpiBaseContracts contracts st) <= 9007199254740992 ->
        sumOfAmounts shown = totalValue (metrics contracts st)).
Proof.
  intros statusValue contracts st k Hterm Hk shown.
  assert (Hperm : Permutation shown (kpiBaseContracts contracts st)).
  { subst shown. rewrite filteredContracts_permutation.
    apply Permutation_refl'. unfold kpiBaseContracts.
    destruct (selectedEntity st =? "ALL")%string eqn:E.
    - apply filter_all_true. intros c. rewrite keeps_step. unfold keeps.
      destruct Hk as [-> | ->]; cbn; rewrite E, Hterm; reflexivity.
    - apply filter_ext. intros c. rewrite keeps_step. unfold keeps.
      destruct Hk as [-> | ->]; cbn; rewrite E, Hterm; cbn; btauto. }
  split; [exact Hperm|].
  intros Hsafe. rewrite (sumOfAmounts_permutation _ _ Hperm).
  unfold metrics, computeMetrics. cbn [totalValue].
  symmetry. now apply reduce_sum_amount.
Qed.

Lemma kpi_value_click_shows_summed_rows_witness :
  let st := setIsHighRiskFilter true initialState in
  let shown :=
    filteredContracts sampleStatusValue sampleContracts
      (step sampleStatusValue sampleContracts st (KPICardClick VALUE)) in
  (searchTerm st = EmptyString
   /\ (VALUE = VALUE \/ VALUE = AVG)
   /\ sumOfMagnitudes (kpiBaseContracts sampleContracts st)
      <= 9007199254740992)
  /\ (Permutation shown (kpiBaseContracts sampleContracts st)
      /\ sumOfAmounts shown = totalValue (metrics sampleContracts st)).
Proof.
  assert (Hsafe : sumOfMagnitudes
                    (kpiBaseContracts sampleContracts
                       (setIsHighRiskFilter true initialState))
                  <= 9007199254740992)
    by (vm_compute; discriminate).
  split; [split; [reflexivity | split; [now left | exact Hsafe]]|].
  destruct (kpi_value_click_shows_summed_rows sampleStatusValue
              sampleContracts (setIsHighRiskFilter true initialState) VALUE
              eq_refl (or_introl eq_refl)) as [Hperm Hsum].
  split; [exact Hperm | exact (Hsum Hsafe)].
Defined.
